(** * Satlyt OBC/SBC gateway: resource-limit orchestrator and command dispatcher

    A shallow embedding of [resource_manager.py] (class [ResourceManager] and
    its command-line [main]) and of [gateway.py] (class [SatelliteGateway]),
    with the properties of the written specification stated against it.

    Conventions of the embedding.
    - Python [str] values are Rocq [string]s.  The text primitives below
      ([is_space], [upper], [lower], [strip], the blank class of the
      pattern) follow CPython on ASCII text, which is the vocabulary of the
      line protocol and of the manifest; outside ASCII, CPython trims and
      changes the case of more characters.  A statement on every text that
      the code trims, changes the case of or matches against the pattern
      carries the hypothesis [Full.is_ascii].
    - [subprocess.run(..., capture_output=True, text=True)] is a query to an
      environment oracle that returns a [ProcResult]; the file and the log of
      what was run are threaded through a state monad over [World].
    - The modules [ResourceManager] and [Gateway] describe the runs in which
      every [subprocess.run] returns and every write that starts completes.
      The module [Full] adds the other runs: a [subprocess.run] that raises
      and is answered by the [except] clauses, and a write that raises after
      [open(..., 'w')] has emptied the file.  Without faults the two agree
      ([FullFacts.set_no_faults], [FullFacts.reset_no_faults]).
    - [print] writes to standard output, which no caller in the repository
      reads; it is not part of the state. *)

From Stdlib Require Import String Ascii ZArith List Bool Lia Arith DecimalString.
Import ListNotations.
Open Scope string_scope.

(** ** Text primitives *)

Module Text.

Definition nl : string := String "010"%char EmptyString.
Definition tab : string := String "009"%char EmptyString.
Definition dq : string := String "034"%char EmptyString.

(** [str.isspace] on one ASCII character: TAB, LF, VT, FF, CR, the four
    separators FS, GS, RS, US, and the blank.  This is also the class [\s]
    of a [str] pattern. *)
Definition is_space (c : ascii) : bool :=
  let n := nat_of_ascii c in
  (((9 <=? n) && (n <=? 13)) || ((28 <=? n) && (n <=? 32)))%nat.

(** The class [[a-zA-Z]]. *)
Definition is_letter (c : ascii) : bool :=
  let n := nat_of_ascii c in
  (((65 <=? n) && (n <=? 90)) || ((97 <=? n) && (n <=? 122)))%nat.

Definition is_lower (c : ascii) : bool :=
  let n := nat_of_ascii c in ((97 <=? n) && (n <=? 122))%nat.

Definition is_upper (c : ascii) : bool :=
  let n := nat_of_ascii c in ((65 <=? n) && (n <=? 90))%nat.

Definition upper_char (c : ascii) : ascii :=
  if is_lower c then ascii_of_nat (nat_of_ascii c - 32) else c.

Definition lower_char (c : ascii) : ascii :=
  if is_upper c then ascii_of_nat (nat_of_ascii c + 32) else c.

Fixpoint map_string (f : ascii -> ascii) (s : string) : string :=
  match s with
  | EmptyString => EmptyString
  | String c s' => String (f c) (map_string f s')
  end.

(** [s.upper()] and [s.lower()]. *)
Definition upper : string -> string := map_string upper_char.
Definition lower : string -> string := map_string lower_char.

(** [s.lstrip()]; also the greedy [\s*] of a pattern. *)
Fixpoint lstrip (s : string) : string :=
  match s with
  | String c s' => if is_space c then lstrip s' else s
  | EmptyString => EmptyString
  end.

(** The number of leading characters that [lstrip] removes. *)
Fixpoint spaces (s : string) : nat :=
  match s with
  | String c s' => if is_space c then S (spaces s') else 0
  | EmptyString => 0
  end.

(** [s[n:]]. *)
Fixpoint drop (n : nat) (s : string) : string :=
  match n, s with
  | S k, String _ s' => drop k s'
  | _, _ => s
  end.

(** The text of [s] before its first line feed. *)
Fixpoint first_line (s : string) : string :=
  match s with
  | EmptyString => EmptyString
  | String c s' =>
      if Ascii.eqb c "010"%char then EmptyString else String c (first_line s')
  end.

(** [s] has no line feed. *)
Fixpoint one_line (s : string) : bool :=
  match s with
  | EmptyString => true
  | String c s' => negb (Ascii.eqb c "010"%char) && one_line s'
  end.

(** [s.rstrip()]. *)
Fixpoint rstrip (s : string) : string :=
  match s with
  | EmptyString => EmptyString
  | String c s' =>
      match rstrip s' with
      | EmptyString => if is_space c then EmptyString else String c EmptyString
      | r => String c r
      end
  end.

(** [s.strip()]. *)
Definition strip (s : string) : string := rstrip (lstrip s).

(** [s.startswith(p)], returning the rest of [s] after [p]. *)
Fixpoint strip_prefix (p s : string) : option string :=
  match p with
  | EmptyString => Some s
  | String a p' =>
      match s with
      | String b s' => if Ascii.eqb a b then strip_prefix p' s' else None
      | EmptyString => None
      end
  end.

Definition startswith (s p : string) : bool :=
  match strip_prefix p s with Some _ => true | None => false end.

(** [p in s]. *)
Fixpoint contains (p s : string) : bool :=
  startswith s p ||
  match s with
  | EmptyString => false
  | String _ s' => contains p s'
  end.

(** [s.replace(old, new)] for a non-empty [old]: every occurrence, leftmost
    first, without overlap.  [skip] counts the characters of an occurrence
    that are still to be passed over. *)
Fixpoint replace_from (skip : nat) (old new s : string) : string :=
  match s with
  | EmptyString => EmptyString
  | String c s' =>
      match skip with
      | S k => replace_from k old new s'
      | O =>
          if startswith s old
          then new ++ replace_from (String.length old - 1) old new s'
          else String c (replace_from 0 old new s')
      end
  end.

Definition replace (old new s : string) : string := replace_from 0 old new s.

(** [s.split(sep)] for a one-character separator. *)
Fixpoint split (sep : ascii) (s : string) : list string :=
  match s with
  | EmptyString => [EmptyString]
  | String c s' =>
      if Ascii.eqb c sep then EmptyString :: split sep s'
      else match split sep s' with
           | w :: ws => String c w :: ws
           | [] => [String c EmptyString]
           end
  end.

(** [s.split(sep, 1)] for a one-character separator. *)
Fixpoint split1 (sep : ascii) (s : string) : list string :=
  match s with
  | EmptyString => [EmptyString]
  | String c s' =>
      if Ascii.eqb c sep then [EmptyString; s']
      else match split1 sep s' with
           | w :: ws => String c w :: ws
           | [] => [String c EmptyString]
           end
  end.

(** [sep.join(parts)]. *)
Fixpoint join (sep : string) (parts : list string) : string :=
  match parts with
  | [] => EmptyString
  | [p] => p
  | p :: ps => p ++ sep ++ join sep ps
  end.

(** [str(n)] for an integer. *)
Definition str_of_Z (z : Z) : string := NilZero.string_of_int (Z.to_int z).

End Text.

Import Text.

(** ** The manifest and its patch ([ResourceManager.update_compose_file]) *)

Module Manifest.

(** The identity marker after which the section is inserted. *)
Definition marker : string := "container_name: satlyt-container".

(** The fixed document written by [reset_resource_limits]. *)
Definition original_content : string :=
  join nl
    [ "services:";
      "  satlyt-server:";
      "    build: ./satlyt_clean";
      "    ports:";
      "      - " ++ dq ++ "3000:3000" ++ dq;
      "    volumes:";
      "      - ./satlyt_clean/results:/app/results";
      "      - ./satlyt_clean/errors:/app/errors";
      "    container_name: satlyt-container" ].

(** [x or d] on an optional string: [None] and the empty string are falsy. *)
Definition or_default (x : option string) (d : string) : string :=
  match x with
  | Some (String c s) => String c s
  | _ => d
  end.

(** The f-string [limits_section].  [half] is the text of
    [float(cpu_limit or 1.0) * 0.5]. *)
Definition limits_section (cpu_limit memory_limit : option string) (half : string)
  : string :=
  join nl
    [ "    deploy:";
      "      resources:";
      "        limits:";
      "          cpus: '" ++ or_default cpu_limit "1.0" ++ "'";
      "          memory: " ++ or_default memory_limit "1G";
      "        reservations:";
      "          cpus: '" ++ half ++ "'";
      "          memory: " ++ or_default memory_limit "512M" ].

(** The pattern
    [\n\s*deploy:.*?(?=\n\s*[a-zA-Z]|\n\s*$|\Z)] under [re.DOTALL].

    [section_end s] is the lookahead at the suffix [s].  The greedy [\s*]
    is followed by a character outside [\s] (a letter) or by the end, so
    giving characters back never helps and the maximal run decides:
    - [\n\s*[a-zA-Z]]: a newline, blanks, then a letter;
    - [\n\s*$]: a newline and nothing but blanks up to the end;
    - [\Z]: the end of the text. *)
Definition section_end (s : string) : bool :=
  match s with
  | EmptyString => true
  | String c s' =>
      if Ascii.eqb c "010"%char then
        match lstrip s' with
        | EmptyString => true
        | String d _ => is_letter d
        end
      else false
  end.

(** The lazy [.*?] followed by the lookahead: the number of characters
    consumed up to the first suffix at which [section_end] holds. *)
Fixpoint lazy_any (s : string) : nat :=
  if section_end s then 0
  else match s with
       | EmptyString => 0
       | String _ s' => S (lazy_any s')
       end.

(** One attempt of the whole pattern at the head of [s]: the length of the
    match, which is the line feed, the blanks, the seven characters of
    [deploy:] and what [.*?] takes. *)
Definition match_deploy (s : string) : option nat :=
  match s with
  | String c s' =>
      if Ascii.eqb c "010"%char then
        match strip_prefix "deploy:" (lstrip s') with
        | Some r => Some (1 + spaces s' + 7 + lazy_any r)
        | None => None
        end
      else None
  | EmptyString => None
  end.

(** [re.sub(pattern, '', s, flags=re.DOTALL)]: matches are searched left to
    right, each one is dropped and the search resumes where it ended. *)
Fixpoint sub_from (skip : nat) (s : string) : string :=
  match s with
  | EmptyString => EmptyString
  | String c s' =>
      match skip with
      | S k => sub_from k s'
      | O =>
          match match_deploy s with
          | Some (S k) => sub_from k s'
          | _ => String c (sub_from 0 s')
          end
      end
  end.

Definition re_sub_deploy (s : string) : string := sub_from 0 s.

(** Lines 119 to 123: the removal is attempted only when ['deploy:'] occurs. *)
Definition remove_deploy (content : string) : string :=
  if contains "deploy:" content then re_sub_deploy content else content.

(** Lines 119 to 129: the new text of the manifest. *)
Definition patch (cpu_limit memory_limit : option string) (half content : string)
  : string :=
  replace marker (marker ++ nl ++ limits_section cpu_limit memory_limit half)
          (remove_deploy content).

End Manifest.

(** ** Python floats, as far as the read-back needs them *)

Module PyFloat.

Open Scope Z_scope.

(** A binary64 value [(-1)^fneg * fman * 2^fexp]. *)
Record float := { fneg : bool; fman : Z; fexp : Z }.

(** [n / d] rounded to the nearest integer, ties to the even one
    ([0 <= n], [0 < d]). *)
Definition round_half_even (n d : Z) : Z :=
  let q := n / d in
  match 2 * (n mod d) ?= d with
  | Lt => q
  | Gt => q + 1
  | Eq => if Z.even q then q else q + 1
  end.

(** [2^k <= n / d], for positive [n] and [d]. *)
Definition ge_pow2 (n d k : Z) : bool :=
  if 0 <=? k then d * 2 ^ k <=? n else d <=? n * 2 ^ (- k).

(** [floor (log2 (n / d))], for positive [n] and [d]. *)
Definition log2_quot (n d : Z) : Z :=
  let k := Z.log2 n - Z.log2 d in
  if ge_pow2 n d k then k else k - 1.

(** [a / b] on Python integers: the exact quotient, correctly rounded to
    binary64 (53 significant bits, exponent no lower than -1074).  [None]
    stands for [ZeroDivisionError] and [OverflowError]. *)
Definition true_div (a b : Z) : option float :=
  if b =? 0 then None
  else
    let neg := xorb (a <? 0) (b <? 0) in
    let n := Z.abs a in
    let d := Z.abs b in
    if n =? 0 then Some {| fneg := neg; fman := 0; fexp := 0 |}
    else
      let e := Z.max (log2_quot n d - 52) (-1074) in
      let m := if 0 <=? e then round_half_even n (d * 2 ^ e)
               else round_half_even (n * 2 ^ (- e)) d in
      if (971 <? e) || ((e =? 971) && (m =? 2 ^ 53)) then None
      else Some {| fneg := neg; fman := m; fexp := e |}.

(** [|x| * 10^k] rounded to the nearest integer, ties to even, which is how
    the [f] presentation type rounds. *)
Definition scaled (k : Z) (x : float) : Z :=
  if 0 <=? fexp x then fman x * 2 ^ fexp x * 10 ^ k
  else round_half_even (fman x * 10 ^ k) (2 ^ (- fexp x)).

Definition sign (x : float) : string := if fneg x then "-"%string else EmptyString.

(** [f"{x:.1f}"]. *)
Definition format_1f (x : float) : string :=
  let t := scaled 1 x in
  (sign x ++ str_of_Z (t / 10) ++ "." ++ str_of_Z (t mod 10))%string.

(** [f"{x:.0f}"]. *)
Definition format_0f (x : float) : string :=
  (sign x ++ str_of_Z (scaled 0 x))%string.

End PyFloat.

(** ** The environment: runtime tools, files, collaborators *)

Module Sys.

(** A [subprocess.CompletedProcess]. *)
Record ProcResult := { returncode : Z; stdout : string; stderr : string }.

(** The shell commands of the two files.  [ResourceManager] names the
    manifest [docker-compose-up.yml] and the gateway [./docker-compose-up.yml]:
    one file, one command. *)
Inductive Cmd :=
| ComposeDown            (* docker-compose -f <manifest> down *)
| ComposeUp              (* docker-compose -f <manifest> up -d *)
| ComposeUpForceRecreate (* docker-compose -f <manifest> up -d --force-recreate *)
| DockerRm               (* docker rm satlyt-container *)
| DockerPsStatus         (* docker ps --filter name=... --format '{{.Status}}' *)
| DockerInspect          (* docker inspect satlyt-container *)
| InspectState           (* docker inspect ... --format='{{.State.Status}}\t...' *)
| StatsCPUPerc           (* docker stats ... --format '{{.CPUPerc}}' *)
| StatsMemUsage          (* docker stats ... --format '{{.MemUsage}}' *)
| StatsMemPerc           (* docker stats ... --format '{{.MemPerc}}' *)
| StatsNetIO             (* docker stats ... --format '{{.NetIO}}' *)
| StatsBlockIO.          (* docker stats ... --format '{{.BlockIO}}' *)

(** What an operation did to its surroundings, in order. *)
Inductive Event :=
| Ran (c : Cmd)
| Wrote (content : string)
| Slept
| Requested (method endpoint : string).

(** The manifest file and the log of effects.  [manifest] is the content
    that [open(..., 'r').read()] returns, or the text of the exception it
    raises; [write_error] is the text of the exception raised by
    [open(..., 'w')], if it raises. *)
Record World := {
  manifest : string + string;
  write_error : option string;
  trace : list Event
}.

Definition log (e : Event) (w : World) : World :=
  {| manifest := manifest w; write_error := write_error w;
     trace := trace w ++ [e] |}.

(** The part of [json.loads(stdout)[0]] that [get_current_limits] reads. *)
Record HostConfig := {
  CpuQuota : option Z;
  CpuPeriod : option Z;
  CpuCount : option Z;
  Memory : option Z
}.

Record ContainerInfo := { HostConfig_ : option HostConfig }.

(** The body of a 200 response, [response.json()]: an object with the text
    of its values, or any other value, of which only the truth value is
    observed. *)
Inductive ApiValue :=
| ApiObject (fields : list (string * string))
| ApiOther (truthy : bool).

(** Everything the program asks of its surroundings.
    - [run w c]: the outcome of the shell command [c] in the world [w];
    - [float_half s]: the text of [float(s) * 0.5], or the text of the
      [ValueError] raised by [float(s)];
    - [loads_inspect out]: [json.loads(out)[0]], [None] when it raises;
    - [http w method endpoint]: the JSON body of a 200 response, [None] on
      any other status or on a connection error;
    - [now w]: [datetime.now().isoformat()]. *)
Record Env := {
  run : World -> Cmd -> ProcResult;
  float_half : string -> string + string;
  loads_inspect : string -> option ContainerInfo;
  http : World -> string -> string -> option ApiValue;
  now : World -> string
}.

(** State passing over [World]. *)
Definition M (A : Type) : Type := World -> A * World.

Definition ret {A} (a : A) : M A := fun w => (a, w).

Definition bind {A B} (m : M A) (k : A -> M B) : M B :=
  fun w => let (a, w') := m w in k a w'.

(** Operations that leave the writability of the manifest as it was. *)
Definition keeps {A} (m : M A) : Prop :=
  forall w, write_error (snd (m w)) = write_error w.

End Sys.

Import Sys.

Declare Scope monad_scope.
Delimit Scope monad_scope with monad.
Notation "x <- m ;; k" := (bind m (fun x => k))
  (at level 61, m at next level, right associativity) : monad_scope.
Notation "m ;;; k" := (bind m (fun _ => k))
  (at level 61, right associativity) : monad_scope.
Open Scope monad_scope.

(** ** [resource_manager.py] *)

Module ResourceManager.

Import Manifest.

(** The value of the ["error"] key of a failed result. *)
Inductive ErrorKind :=
| STOP_CONTAINER_FAILED
| START_CONTAINER_FAILED
| FILE_UPDATE_FAILED
| CONTAINER_NOT_RUNNING
| CONTAINER_NOT_HEALTHY
| VERIFICATION_FAILED
| EXCEPTION.

(** [{"success": False, "message": ..., "error": ...}]. *)
Record Failure := { message : string; error : ErrorKind }.

(** A result dictionary: a failure, or [{"success": True, ...}] with the
    keys of the operation. *)
Inductive Result (A : Type) :=
| Failed (f : Failure)
| Success (a : A).
Arguments Failed {A} f.
Arguments Success {A} a.

Definition success {A} (r : Result A) : bool :=
  match r with Success _ => true | Failed _ => false end.

(** [{"cpu": ..., "memory": ...}] as read back from the runtime. *)
Record Limits := { cpu : string; memory : string }.

(** The success keys of [verify_container_status]. *)
Record Verified := { status : string; verify_message : string }.

(** The success keys of [set_resource_limits]. *)
Record Applied := {
  applied_message : string;
  limits : option string * option string;
  current_limits : Limits;
  container_status : string
}.

(** The success keys of [reset_resource_limits]. *)
Record Reset := { reset_message : string; reset_limits : Limits }.

Definition unknown : Limits := {| cpu := "unknown"; memory := "unknown" |}.

(** ['Key' in host_config and host_config['Key'] > 0], with the value. *)
Definition positive (x : option Z) : option Z :=
  match x with
  | Some v => if (0 <? v)%Z then Some v else None
  | None => None
  end.

(** Lines 217 to 223 of [get_current_limits]: the CPU limit of a host
    configuration.  [None] is an exception on the way ([ZeroDivisionError],
    [OverflowError]). *)
Definition cpu_of (hc : HostConfig) : option string :=
  match positive (CpuQuota hc) with
  | Some cpu_quota =>
      let cpu_period :=
        match CpuPeriod hc with Some p => p | None => 100000%Z end in
      option_map PyFloat.format_1f (PyFloat.true_div cpu_quota cpu_period)
  | None =>
      match positive (CpuCount hc) with
      | Some n => Some (str_of_Z n)
      | None => Some "unlimited"
      end
  end.

(** Lines 225 to 233: the memory limit of a host configuration. *)
Definition memory_of (hc : HostConfig) : option string :=
  match positive (Memory hc) with
  | Some memory_bytes =>
      if (1024 ^ 3 <=? memory_bytes)%Z then
        option_map (fun x => PyFloat.format_1f x ++ "G")
                   (PyFloat.true_div memory_bytes (1024 ^ 3))
      else if (1024 ^ 2 <=? memory_bytes)%Z then
        option_map (fun x => PyFloat.format_0f x ++ "M")
                   (PyFloat.true_div memory_bytes (1024 ^ 2))
      else Some (str_of_Z memory_bytes ++ "B")
  | None => Some "unlimited"
  end.

(** Lines 210 to 236: the limits of a parsed inspect record. *)
Definition limits_of_info (info : ContainerInfo) : option Limits :=
  match HostConfig_ info with
  | None => Some {| cpu := "unlimited"; memory := "unlimited" |}
  | Some hc =>
      match cpu_of hc with
      | None => None
      | Some c =>
          match memory_of hc with
          | None => None
          | Some m => Some {| cpu := c; memory := m |}
          end
      end
  end.

Section WithEnv.

Variable E : Env.

(** [subprocess.run(cmd, shell=True, capture_output=True, text=True)]. *)
Definition sh (c : Cmd) : M ProcResult :=
  fun w => (run E w c, log (Ran c) w).

(** [time.sleep(2)]. *)
Definition sleep : M unit := fun w => (tt, log Slept w).

(** The text of [float(cpu_limit or 1.0) * 0.5]: the default is the float
    [1.0], whose half prints as [0.5]; a given text goes through [float]. *)
Definition half_cpus (cpu_limit : option string) : string + string :=
  match cpu_limit with
  | Some (String c s) => float_half E (String c s)
  | _ => inl "0.5"
  end.

Definition update_compose_file (cpu_limit memory_limit : option string)
  : M (Result unit) :=
  fun w =>
    let failed e :=
      Failed {| message := "Error updating compose file: " ++ e;
                error := FILE_UPDATE_FAILED |} in
    match manifest w with
    | inr e => (failed e, w)
    | inl content =>
        match half_cpus cpu_limit with
        | inr e => (failed e, w)
        | inl half =>
            let content' := patch cpu_limit memory_limit half content in
            match write_error w with
            | Some e => (failed e, w)
            | None =>
                (Success tt,
                 {| manifest := inl content'; write_error := None;
                    trace := trace w ++ [Wrote content'] |})
            end
        end
    end.

Definition verify_container_status : M (Result Verified) :=
  result <- sh DockerPsStatus ;;
  if negb (returncode result =? 0)%Z || (strip (stdout result) =? EmptyString) then
    ret (Failed {| message := "Container is not running";
                   error := CONTAINER_NOT_RUNNING |})
  else
    let status := strip (stdout result) in
    if negb (contains "Up" status) then
      ret (Failed {| message := "Container status: " ++ status;
                     error := CONTAINER_NOT_HEALTHY |})
    else
      ret (Success {| status := status;
                      verify_message := "Container is running and healthy" |}).

Definition get_current_limits : M Limits :=
  result <- sh DockerInspect ;;
  if negb (returncode result =? 0)%Z then ret unknown
  else
    match loads_inspect E (stdout result) with
    | None => ret unknown
    | Some info =>
        match limits_of_info info with
        | None => ret unknown
        | Some l => ret l
        end
    end.

Definition set_resource_limits (cpu_limit memory_limit : option string)
  : M (Result Applied) :=
  stop_result <- sh ComposeDown ;;
  if negb (returncode stop_result =? 0)%Z then
    ret (Failed {| message := "Failed to stop container: " ++ stderr stop_result;
                   error := STOP_CONTAINER_FAILED |})
  else
    update_result <- update_compose_file cpu_limit memory_limit ;;
    match update_result with
    | Failed f => ret (Failed f)
    | Success _ =>
        sh DockerRm ;;;
        start_result <- sh ComposeUpForceRecreate ;;
        if negb (returncode start_result =? 0)%Z then
          ret (Failed {| message := "Failed to start container: "
                                      ++ stderr start_result;
                         error := START_CONTAINER_FAILED |})
        else
          verify_result <- verify_container_status ;;
          match verify_result with
          | Failed f => ret (Failed f)
          | Success v =>
              sleep ;;;
              current <- get_current_limits ;;
              ret (Success {| applied_message := "Resource limits applied successfully";
                              limits := (cpu_limit, memory_limit);
                              current_limits := current;
                              container_status := status v |})
          end
    end.

Definition reset_resource_limits : M (Result Reset) :=
  sh ComposeDown ;;;
  fun w =>
    match write_error w with
    | Some e =>
        (Failed {| message := "Error resetting limits: " ++ e;
                   error := EXCEPTION |}, w)
    | None =>
        (start_result <- sh ComposeUp ;;
         if negb (returncode start_result =? 0)%Z then
           ret (Failed {| message := "Failed to start container: "
                                       ++ stderr start_result;
                          error := START_CONTAINER_FAILED |})
         else
           ret (Success {| reset_message := "Resource limits reset to default (unlimited)";
                           reset_limits := {| cpu := "unlimited";
                                              memory := "unlimited" |} |}))
          {| manifest := inl original_content; write_error := None;
             trace := trace w ++ [Wrote original_content] |}
    end.

(** What a run of the script leaves behind: the exit status and what it
    wrote to standard error.  The script reports through [print] alone, so
    its standard error stays empty. *)
Record Exit := { exit_code : Z; err_output : string }.

Definition exit (n : Z) : Exit := {| exit_code := n; err_output := EmptyString |}.

(** [main()], with [args] standing for [sys.argv[1:]]. *)
Definition main (args : list string) : M Exit :=
  match args with
  | [] => ret (exit 1)
  | command :: rest =>
      let command := lower command in
      if command =? "set" then
        match rest with
        | cpu_limit :: memory_limit :: _ =>
            result <- set_resource_limits (Some cpu_limit) (Some memory_limit) ;;
            if success result then ret (exit 0) else ret (exit 1)
        | _ => ret (exit 1)
        end
      else if command =? "reset" then
        result <- reset_resource_limits ;;
        if success result then ret (exit 0) else ret (exit 1)
      else if command =? "status" then
        get_current_limits ;;;
        verify_container_status ;;;
        ret (exit 0)
      else ret (exit 1)
  end.

End WithEnv.

End ResourceManager.

(** ** [gateway.py] *)

Module Gateway.

(** [json.dumps] of a text: the characters outside the printable ASCII
    range, the quote and the backslash are escaped. *)
Definition hex_digit (n : nat) : string :=
  String (ascii_of_nat (if (n <? 10)%nat then 48 + n else 87 + n)) EmptyString.

Definition escape_char (c : ascii) : string :=
  let n := nat_of_ascii c in
  if (n =? 34)%nat then "\" ++ dq
  else if (n =? 92)%nat then "\\"
  else if (n =? 10)%nat then "\n"
  else if (n =? 13)%nat then "\r"
  else if (n =? 9)%nat then "\t"
  else if (n =? 8)%nat then "\b"
  else if (n =? 12)%nat then "\f"
  else if ((32 <=? n) && (n <=? 126))%nat then String c EmptyString
  else "\u00" ++ hex_digit (n / 16) ++ hex_digit (n mod 16).

Fixpoint escape (s : string) : string :=
  match s with
  | EmptyString => EmptyString
  | String c s' => escape_char c ++ escape s'
  end.

Definition json_string (s : string) : string := dq ++ escape s ++ dq.

(** [json.dumps] of a dictionary from texts to texts, in insertion order. *)
Definition json_dumps (d : list (string * string)) : string :=
  "{" ++ join ", " (map (fun kv => json_string (fst kv) ++ ": " ++ json_string (snd kv)) d)
      ++ "}".

(** [d[key]] on a parsed object. *)
Fixpoint lookup (key : string) (d : list (string * string)) : option string :=
  match d with
  | [] => None
  | (k, v) :: d' => if k =? key then Some v else lookup key d'
  end.

(** The truth value of what [call_api] returns. *)
Definition truthy (r : option ApiValue) : bool :=
  match r with
  | None => false
  | Some (ApiObject []) => false
  | Some (ApiObject (_ :: _)) => true
  | Some (ApiOther b) => b
  end.

(** [result[key]]; [None] is the [KeyError] or [TypeError] it raises. *)
Definition subscript (r : option ApiValue) (key : string) : option string :=
  match r with
  | Some (ApiObject d) => lookup key d
  | _ => None
  end.

(** [f"{x}"] for a text or [None]. *)
Definition fmt (x : option string) : string :=
  match x with Some s => s | None => "None" end.

(** [if x:] for a text or [None]. *)
Definition given (x : option string) : bool :=
  match x with Some (String _ _) => true | _ => false end.

(** The loop over [limits_pairs] in [set_resource_limits]. *)
Fixpoint parse_pairs (pairs : list string) (cpu_limit memory_limit : option string)
  : option string * option string :=
  match pairs with
  | [] => (cpu_limit, memory_limit)
  | pair_ :: rest =>
      match split1 "=" pair_ with
      | [key; value] =>
          let key := lower (strip key) in
          let value := strip value in
          if key =? "cpu" then parse_pairs rest (Some value) memory_limit
          else if key =? "memory" then parse_pairs rest cpu_limit (Some value)
          else parse_pairs rest cpu_limit memory_limit
      | _ => parse_pairs rest cpu_limit memory_limit
      end
  end.

(** [cmd_parts] as built on lines 260 to 269. *)
Definition cmd_parts (cpu_limit memory_limit : option string) : list string :=
  ["python3"; "resource_manager.py"; "set"]
    ++ [if given cpu_limit then fmt cpu_limit else "1.0"]
    ++ [if given memory_limit then fmt memory_limit else "1G"].

Section WithEnv.

Variable E : Env.

Definition sh := ResourceManager.sh E.

(** [subprocess.run(["python3", "resource_manager.py", ...])]: a run of the
    script of this repository on the remaining arguments. *)
Definition python3 (parts : list string) : M ResourceManager.Exit :=
  ResourceManager.main E (skipn 2 parts).

Definition call_api (endpoint method : string) : M (option ApiValue) :=
  fun w => (http E w method endpoint, log (Requested method endpoint) w).

Definition start_container : M string :=
  result <- sh ComposeUp ;;
  if (returncode result =? 0)%Z then ret "CONTAINER_STARTED"
  else ret "CONTAINER_ERROR".

Definition stop_container : M string :=
  result <- sh ComposeDown ;;
  if (returncode result =? 0)%Z then ret "CONTAINER_STOPPED"
  else ret "CONTAINER_ERROR".

(** [r.stdout.strip() if r.returncode == 0 else "N/A"]. *)
Definition metric (r : ProcResult) : string :=
  if (returncode r =? 0)%Z then strip (stdout r) else "N/A".

(** The dictionary [status_data]. *)
Definition status_data (cpu_result mem_result mem_percent_result net_result
                        block_result info_result : ProcResult)
                       (timestamp : string) : list (string * string) :=
  let info_parts := split "009" (strip (stdout info_result)) in
  let status := match info_parts with s :: _ => s | [] => "unknown" end in
  let started_at := match info_parts with _ :: s :: _ => s | _ => "N/A" end in
  let image := match info_parts with _ :: _ :: s :: _ => s | _ => "N/A" end in
  [ ("container_name", "satlyt-container");
    ("status", status);
    ("cpu_percent", metric cpu_result);
    ("memory_usage", metric mem_result);
    ("memory_percent", metric mem_percent_result);
    ("network_io", metric net_result);
    ("block_io", metric block_result);
    ("started_at", started_at);
    ("image", image);
    ("timestamp", timestamp) ].

Definition get_container_status : M string :=
  cpu_result <- sh StatsCPUPerc ;;
  mem_result <- sh StatsMemUsage ;;
  mem_percent_result <- sh StatsMemPerc ;;
  net_result <- sh StatsNetIO ;;
  block_result <- sh StatsBlockIO ;;
  info_result <- sh InspectState ;;
  fun w =>
    ("CONTAINER_STATUS:"
       ++ json_dumps (status_data cpu_result mem_result mem_percent_result
                                  net_result block_result info_result (now E w)),
     w).

Definition call_run_model : M string :=
  result <- call_api "/RUN-MODEL" "POST" ;;
  if truthy result then ret "MODEL_STARTED" else ret "API_ERROR".

Definition call_execution_status : M string :=
  result <- call_api "/MODEL-EXECUTION-STATUS" "GET" ;;
  if truthy result then
    match subscript result "status" with
    | Some v => ret ("STATUS:" ++ v)
    | None => ret "CONNECTION_ERROR"
    end
  else ret "API_ERROR".

Definition call_get_file_number : M string :=
  result <- call_api "/GET-FILE-NUMBER" "GET" ;;
  if truthy result then
    match subscript result "latest_result_file" with
    | Some v => ret ("FILES:" ++ v)
    | None => ret "CONNECTION_ERROR"
    end
  else ret "API_ERROR".

Definition call_shutdown : M string :=
  result <- call_api "/SHUT-DOWN" "POST" ;;
  if truthy result then ret "SHUTDOWN_ACK" else ret "SHUTDOWN_ERROR".

Definition set_resource_limits (command : string) : M string :=
  match split1 ":" command with
  | _ :: limits_data :: _ =>
      let (cpu_limit, memory_limit) :=
        parse_pairs (split "," limits_data) None None in
      if negb (given cpu_limit) && negb (given memory_limit) then
        ret "RESOURCE_LIMITS_ERROR:No limits specified"
      else
        result <- python3 (cmd_parts cpu_limit memory_limit) ;;
        if (ResourceManager.exit_code result =? 0)%Z then
          ret ("RESOURCE_LIMITS_SET:CPU=" ++ fmt cpu_limit
                 ++ ",Memory=" ++ fmt memory_limit)
        else
          ret ("RESOURCE_LIMITS_ERROR:" ++ ResourceManager.err_output result)
  | _ => ret "RESOURCE_LIMITS_ERROR:list index out of range"
  end.

Definition reset_resource_limits : M string :=
  result <- python3 ["python3"; "resource_manager.py"; "reset"] ;;
  if (ResourceManager.exit_code result =? 0)%Z then ret "RESOURCE_LIMITS_RESET"
  else ret ("RESOURCE_LIMITS_ERROR:" ++ ResourceManager.err_output result).

Definition handle_text_prompt (command : string) : M string :=
  match split1 ":" command with
  | _ :: text_content :: _ => ret (text_content ++ " OK")
  | _ => ret "TEXT_PROMPT_ERROR:list index out of range"
  end.

(** The commands matched by equality. *)
Definition exact_commands : list string :=
  [ "START_CONTAINER"; "STOP_CONTAINER"; "GET_CONTAINER_STATUS"; "RUN_PAYLOAD";
    "GET_STATUS"; "GET_FILES"; "SHUTDOWN"; "PING"; "RESET_RESOURCE_LIMITS" ].

Definition lift {A} (m : M A) : M (option A) := a <- m ;; ret (Some a).

Definition process_obc_command (command : string) : M (option string) :=
  let command := upper (strip command) in
  if startswith command "[LOG]" then ret None
  else if command =? "START_CONTAINER" then lift start_container
  else if command =? "STOP_CONTAINER" then lift stop_container
  else if command =? "GET_CONTAINER_STATUS" then lift get_container_status
  else if command =? "RUN_PAYLOAD" then lift call_run_model
  else if command =? "GET_STATUS" then lift call_execution_status
  else if command =? "GET_FILES" then lift call_get_file_number
  else if command =? "SHUTDOWN" then lift call_shutdown
  else if command =? "PING" then ret (Some "PONG")
  else if startswith command "SET_RESOURCE_LIMITS:" then
    lift (set_resource_limits command)
  else if command =? "RESET_RESOURCE_LIMITS" then lift reset_resource_limits
  else if startswith command "TEXT_PROMPT:" then lift (handle_text_prompt command)
  else ret (Some ("UNKNOWN_CMD:" ++ command)).

End WithEnv.

(** An input line is recognised when, trimmed and in upper case, it is a log
    line, one of the exact commands, or carries one of the two prefixes. *)
Definition recognised (line : string) : bool :=
  let command := upper (strip line) in
  startswith command "[LOG]"
  || existsb (String.eqb command) exact_commands
  || startswith command "SET_RESOURCE_LIMITS:"
  || startswith command "TEXT_PROMPT:".

End Gateway.

(** ** Concrete environments *)

Module Scenario.

Import Manifest.

Definition ok (out : string) : ProcResult :=
  {| returncode := 0; stdout := out; stderr := EmptyString |}.

Definition fails (out err : string) : ProcResult :=
  {| returncode := 1; stdout := out; stderr := err |}.

(** A runtime in which every tool succeeds and the instance is up. *)
Definition healthy_run (w : World) (c : Cmd) : ProcResult :=
  match c with
  | DockerPsStatus => ok ("Up 2 seconds" ++ nl)
  | DockerInspect => ok ("[{...}]" ++ nl)
  | InspectState =>
      ok ("running" ++ tab ++ "2024-05-01T10:00:00Z" ++ tab ++ "satlyt-server" ++ nl)
  | StatsCPUPerc => ok ("0.15%" ++ nl)
  | StatsMemUsage => ok ("42MiB / 512MiB" ++ nl)
  | StatsMemPerc => ok ("8.20%" ++ nl)
  | StatsNetIO => ok ("1.2kB / 0B" ++ nl)
  | StatsBlockIO => ok ("0B / 0B" ++ nl)
  | _ => ok EmptyString
  end.

(** The text of [float(s) * 0.5] for the three literals that the scenarios
    pass; they pass no other. *)
Definition float_half_table (s : string) : string + string :=
  if s =? "0.5" then inl "0.25"
  else if s =? "1.0" then inl "0.5"
  else if s =? "2.0" then inl "1.0"
  else inr ("could not convert string to float: '" ++ s ++ "'").

(** Half a CPU and 512 MiB, as the runtime reports them. *)
Definition half_cpu_512M : ContainerInfo :=
  {| HostConfig_ :=
       Some {| CpuQuota := Some 50000%Z; CpuPeriod := Some 100000%Z;
               CpuCount := Some 0%Z; Memory := Some 536870912%Z |} |}.

(** No quota, no memory limit, and a CPU count of two. *)
Definition two_cpus : ContainerInfo :=
  {| HostConfig_ :=
       Some {| CpuQuota := Some 0%Z; CpuPeriod := Some 0%Z;
               CpuCount := Some 2%Z; Memory := Some 0%Z |} |}.

Definition healthy : Env :=
  {| run := healthy_run;
     float_half := float_half_table;
     loads_inspect := fun _ => Some half_cpu_512M;
     http := fun _ _ _ => Some (ApiObject [("status", "idle"); ("latest_result_file", "7")]);
     now := fun _ => "2024-05-01T10:00:05.000000" |}.

(** The same runtime, reporting a CPU count instead of a quota. *)
Definition counting : Env :=
  {| run := healthy_run;
     float_half := float_half_table;
     loads_inspect := fun _ => Some two_cpus;
     http := http healthy;
     now := now healthy |}.

(** The same runtime, except that stopping the instance fails. *)
Definition stop_fails : Env :=
  {| run := fun w c =>
              match c with
              | ComposeDown => fails EmptyString ("permission denied" ++ nl)
              | _ => healthy_run w c
              end;
     float_half := float_half_table;
     loads_inspect := loads_inspect healthy;
     http := http healthy;
     now := now healthy |}.

(** A runtime without the instance: every query about it fails and prints
    nothing but a diagnostic on standard error. *)
Definition no_instance : Env :=
  {| run := fun w c =>
              match c with
              | ComposeDown | ComposeUp | ComposeUpForceRecreate => ok EmptyString
              | _ => fails EmptyString ("Error: No such object: satlyt-container" ++ nl)
              end;
     float_half := float_half_table;
     loads_inspect := fun _ => None;
     http := http healthy;
     now := now healthy |}.

(** A world whose manifest is the baseline document and can be written. *)
Definition fresh : World :=
  {| manifest := inl original_content; write_error := None; trace := [] |}.

End Scenario.

(** ** The statements of the specification that the code does not meet *)

Module Claims.

Import Manifest.

(** [applyLimits] once for every specification of the list, in order. *)
Fixpoint apply_all (E : Env) (specs : list (option string * option string))
  : M unit :=
  match specs with
  | [] => ret tt
  | (cpu_limit, memory_limit) :: rest =>
      ResourceManager.set_resource_limits E cpu_limit memory_limit ;;;
      apply_all E rest
  end.

(** "For all unrecognized input, the response equals UNKNOWN_CMD:<input>
    exactly", the input being the line as received. *)
Definition unknown_echoes_the_line : Prop :=
  forall (E : Env) (line : string) (w : World),
    Gateway.recognised line = false ->
    fst (Gateway.process_obc_command E line w) = Some ("UNKNOWN_CMD:" ++ line).

(** A limit that is unset or zero (or below). *)
Definition not_positive (x : option Z) : Prop :=
  match x with
  | None => True
  | Some v => (v <= 0)%Z
  end.

(** "A zero or unset quota reads back as unlimited", whenever the inspect
    query succeeds and its output has a host configuration. *)
Definition zero_quota_reads_unlimited : Prop :=
  forall (E : Env) (w : World) (info : ContainerInfo) (hc : HostConfig),
    returncode (run E w DockerInspect) = 0%Z ->
    loads_inspect E (stdout (run E w DockerInspect)) = Some info ->
    HostConfig_ info = Some hc ->
    not_positive (CpuQuota hc) ->
    ResourceManager.cpu (fst (ResourceManager.get_current_limits E w)) = "unlimited".

(** The values of a host configuration for which the conversions of
    [get_current_limits] raise nothing: quota and memory below [2^1023], as
    every 64-bit value is, and, next to a positive quota, a period other
    than zero. *)
Definition convertible (hc : HostConfig) : Prop :=
  (forall q, CpuQuota hc = Some q -> (q < 2 ^ 1023)%Z) /\
  (forall b, Memory hc = Some b -> (b < 2 ^ 1023)%Z) /\
  (forall q, CpuQuota hc = Some q -> (0 < q)%Z -> CpuPeriod hc <> Some 0%Z).

(** The lines of a section that a second patch leaves behind. *)
Definition orphan (cpu_limit memory_limit : option string) (half : string)
  : string :=
  join nl
    [ "      resources:";
      "        limits:";
      "          cpus: '" ++ or_default cpu_limit "1.0" ++ "'";
      "          memory: " ++ or_default memory_limit "1G";
      "        reservations:";
      "          cpus: '" ++ half ++ "'";
      "          memory: " ++ or_default memory_limit "512M" ].

End Claims.

(** ** The command loop ([SatelliteGateway.run]) and what is said about texts *)

Module Loop.

(** [f"{message}\n"], the text that [send_to_obc] writes to the port. *)
Definition send_to_obc (message : string) : string := message ++ nl.

(** The body of the loop of [run] (lines 345 to 354) on a line that was read
    and decoded: the line is trimmed; an empty one is passed over; the
    response, unless it is [None] or empty, is sent.  The value is what is
    written to the port. *)
Definition turn (E : Env) (line : string) : M (option string) :=
  let raw_command := strip line in
  match raw_command with
  | EmptyString => ret None
  | String _ _ =>
      response <- Gateway.process_obc_command E raw_command ;;
      match response with
      | Some (String c r) => ret (Some (send_to_obc (String c r)))
      | _ => ret None
      end
  end.

(** The character [c] occurs in [s]. *)
Fixpoint has_char (c : ascii) (s : string) : bool :=
  match s with
  | EmptyString => false
  | String d s' => Ascii.eqb d c || has_char c s'
  end.

(** Every character of [s] is a printable ASCII character. *)
Fixpoint printable (s : string) : bool :=
  match s with
  | EmptyString => true
  | String c s' =>
      ((32 <=? nat_of_ascii c) && (nat_of_ascii c <=? 126))%nat && printable s'
  end.

(** Operations that leave the manifest file as it was. *)
Definition keeps_manifest {A} (m : M A) : Prop :=
  forall w, manifest (snd (m w)) = manifest w
            /\ write_error (snd (m w)) = write_error w.

(** Two environments that differ at most in what [docker rm] returns. *)
Definition same_but_rm (E E' : Env) : Prop :=
  (forall w c, c <> DockerRm -> run E w c = run E' w c) /\
  (forall s, float_half E s = float_half E' s) /\
  (forall s, loads_inspect E s = loads_inspect E' s).

(** Handlers whose response is never the empty text. *)
Definition answers (m : M string) : Prop :=
  forall w, fst (m w) <> EmptyString.

End Loop.

(** ** The second half of [set_resource_limits] *)

Module Steps.

Import ResourceManager.

(** Steps 3 to 6 of [set_resource_limits] (lines 49 to 93), the part that
    runs once the manifest is written: remove the old instance, start with
    forced recreation, verify, wait, read the limits back. *)
Definition recreate_and_verify (E : Env) (cpu_limit memory_limit : option string)
  : M (Result Applied) :=
  sh E DockerRm ;;;
  start_result <- sh E ComposeUpForceRecreate ;;
  if negb (returncode start_result =? 0)%Z then
    ret (Failed {| message := "Failed to start container: "
                                ++ stderr start_result;
                   error := START_CONTAINER_FAILED |})
  else
    verify_result <- verify_container_status E ;;
    match verify_result with
    | Failed f => ret (Failed f)
    | Success v =>
        sleep ;;;
        current <- get_current_limits E ;;
        ret (Success {| applied_message := "Resource limits applied successfully";
                        limits := (cpu_limit, memory_limit);
                        current_limits := current;
                        container_status := status v |})
    end.

(** The events of a full run of steps 3 to 6. *)
Definition recreation_events : list Event :=
  [Ran DockerRm; Ran ComposeUpForceRecreate; Ran DockerPsStatus; Slept;
   Ran DockerInspect].

(** Every tool works but the instance does not come up. *)
Definition start_fails : Env :=
  {| run := fun w c =>
              match c with
              | ComposeUpForceRecreate => Scenario.fails EmptyString ("port is already allocated" ++ nl)
              | _ => Scenario.healthy_run w c
              end;
     float_half := Scenario.float_half_table;
     loads_inspect := loads_inspect Scenario.healthy;
     http := http Scenario.healthy;
     now := now Scenario.healthy |}.

(** The healthy runtime, except that removing the old instance fails. *)
Definition rm_fails : Env :=
  {| run := fun w c =>
              match c with
              | DockerRm =>
                  Scenario.fails EmptyString
                    ("Error: No such container: satlyt-container" ++ nl)
              | _ => Scenario.healthy_run w c
              end;
     float_half := Scenario.float_half_table;
     loads_inspect := loads_inspect Scenario.healthy;
     http := http Scenario.healthy;
     now := now Scenario.healthy |}.

(** The healthy runtime, reporting a quota of half a CPU with the period
    left at zero, and 512 MiB. *)
Definition quota_without_period : Env :=
  {| run := Scenario.healthy_run;
     float_half := Scenario.float_half_table;
     loads_inspect := fun _ =>
       Some {| HostConfig_ :=
                 Some {| CpuQuota := Some 50000%Z; CpuPeriod := Some 0%Z;
                         CpuCount := Some 0%Z; Memory := Some 536870912%Z |} |};
     http := http Scenario.healthy;
     now := now Scenario.healthy |}.

End Steps.

(** ** The same operations with the faults that exceptions report *)

Module Full.

Import Manifest ResourceManager.

(** Every character of [s] is an ASCII character.  On such texts [is_space],
    [upper], [lower] and [strip] are CPython's [str.isspace], [str.upper],
    [str.lower] and [str.strip]; statements about texts that the code trims,
    changes the case of or matches against the pattern carry this
    hypothesis. *)
Fixpoint is_ascii (s : string) : bool :=
  match s with
  | EmptyString => true
  | String c s' => (nat_of_ascii c <? 128)%nat && is_ascii s'
  end.

(** What can go wrong besides an exit status.
    - [raised w c]: the text of the exception that
      [subprocess.run(c, shell=True, ...)] raises in place of returning
      (the shell cannot be started, the output is not text);
    - [spawn_raised w parts]: the same for [subprocess.run(parts, ...)],
      when the program cannot be started;
    - [output_raised w parts]: the text of the exception that
      [subprocess.run(parts, ...)] raises once the program has run and left
      the world [w] (its output is not text);
    - [write_raised w content]: the text of the exception raised by
      [f.write(content)] or by the close of the file, after
      [open(..., 'w')] has emptied the file, and what is left in it. *)
Record Faults := {
  raised : World -> Cmd -> option string;
  spawn_raised : World -> list string -> option string;
  output_raised : World -> list string -> option string;
  write_raised : World -> string -> option (string * string)
}.

Definition no_faults : Faults :=
  {| raised := fun _ _ => None;
     spawn_raised := fun _ _ => None;
     output_raised := fun _ _ => None;
     write_raised := fun _ _ => None |}.

Section WithEnv.

Variable X : Faults.
Variable E : Env.

(** [subprocess.run(cmd, shell=True, capture_output=True, text=True)]:
    the exception, or the completed process. *)
Definition try_sh (c : Cmd) : M (string + ProcResult) :=
  fun w =>
    match raised X w c with
    | Some e => (inl e, log (Ran c) w)
    | None => (inr (run E w c), log (Ran c) w)
    end.

(** [with open(self.compose_file, 'w') as f: f.write(content)]: the
    exception, if one is raised, and the file after it. *)
Definition write_file (content : string) : M (option string) :=
  fun w =>
    match write_error w with
    | Some e => (Some e, w)
    | None =>
        match write_raised X w content with
        | Some (e, rest) =>
            (Some e,
             {| manifest := inl rest; write_error := None;
                trace := trace w ++ [Wrote rest] |})
        | None =>
            (None,
             {| manifest := inl content; write_error := None;
                trace := trace w ++ [Wrote content] |})
        end
    end.

Definition update_compose_file (cpu_limit memory_limit : option string)
  : M (Result unit) :=
  fun w =>
    let failed e :=
      Failed {| message := "Error updating compose file: " ++ e;
                error := FILE_UPDATE_FAILED |} in
    match manifest w with
    | inr e => (failed e, w)
    | inl content =>
        match half_cpus E cpu_limit with
        | inr e => (failed e, w)
        | inl half =>
            (r <- write_file (patch cpu_limit memory_limit half content) ;;
             match r with
             | Some e => ret (failed e)
             | None => ret (Success tt)
             end) w
        end
    end.

Definition verify_container_status : M (Result Verified) :=
  r <- try_sh DockerPsStatus ;;
  match r with
  | inl e =>
      ret (Failed {| message := "Error verifying container: " ++ e;
                     error := VERIFICATION_FAILED |})
  | inr result =>
      if negb (returncode result =? 0)%Z
         || (strip (stdout result) =? EmptyString) then
        ret (Failed {| message := "Container is not running";
                       error := CONTAINER_NOT_RUNNING |})
      else
        let status := strip (stdout result) in
        if negb (contains "Up" status) then
          ret (Failed {| message := "Container status: " ++ status;
                         error := CONTAINER_NOT_HEALTHY |})
        else
          ret (Success {| status := status;
                          verify_message := "Container is running and healthy" |})
  end.

Definition get_current_limits : M Limits :=
  r <- try_sh DockerInspect ;;
  match r with
  | inl _ => ret unknown
  | inr result =>
      if negb (returncode result =? 0)%Z then ret unknown
      else
        match loads_inspect E (stdout result) with
        | None => ret unknown
        | Some info =>
            match limits_of_info info with
            | None => ret unknown
            | Some l => ret l
            end
        end
  end.

(** The [except Exception] of [set_resource_limits]. *)
Definition set_exception {A} (e : string) : M (Result A) :=
  ret (Failed {| message := "Error setting resource limits: " ++ e;
                 error := EXCEPTION |}).

Definition set_resource_limits (cpu_limit memory_limit : option string)
  : M (Result Applied) :=
  r <- try_sh ComposeDown ;;
  match r with
  | inl e => set_exception e
  | inr stop_result =>
      if negb (returncode stop_result =? 0)%Z then
        ret (Failed {| message := "Failed to stop container: "
                                    ++ stderr stop_result;
                       error := STOP_CONTAINER_FAILED |})
      else
        update_result <- update_compose_file cpu_limit memory_limit ;;
        match update_result with
        | Failed f => ret (Failed f)
        | Success _ =>
            r <- try_sh DockerRm ;;
            match r with
            | inl e => set_exception e
            | inr _ =>
                r <- try_sh ComposeUpForceRecreate ;;
                match r with
                | inl e => set_exception e
                | inr start_result =>
                    if negb (returncode start_result =? 0)%Z then
                      ret (Failed {| message := "Failed to start container: "
                                                  ++ stderr start_result;
                                     error := START_CONTAINER_FAILED |})
                    else
                      verify_result <- verify_container_status ;;
                      match verify_result with
                      | Failed f => ret (Failed f)
                      | Success v =>
                          sleep ;;;
                          current <- get_current_limits ;;
                          ret (Success
                                 {| applied_message :=
                                      "Resource limits applied successfully";
                                    limits := (cpu_limit, memory_limit);
                                    current_limits := current;
                                    container_status := status v |})
                      end
                end
            end
        end
  end.

(** The [except Exception] of [reset_resource_limits]. *)
Definition reset_exception {A} (e : string) : M (Result A) :=
  ret (Failed {| message := "Error resetting limits: " ++ e;
                 error := EXCEPTION |}).

Definition reset_resource_limits : M (Result Reset) :=
  r <- try_sh ComposeDown ;;
  match r with
  | inl e => reset_exception e
  | inr _ =>
      r <- write_file original_content ;;
      match r with
      | Some e => reset_exception e
      | None =>
          r <- try_sh ComposeUp ;;
          match r with
          | inl e => reset_exception e
          | inr start_result =>
              if negb (returncode start_result =? 0)%Z then
                ret (Failed {| message := "Failed to start container: "
                                            ++ stderr start_result;
                               error := START_CONTAINER_FAILED |})
              else
                ret (Success
                       {| reset_message :=
                            "Resource limits reset to default (unlimited)";
                          reset_limits := {| cpu := "unlimited";
                                             memory := "unlimited" |} |})
          end
      end
  end.

End WithEnv.

Section Script.

Variable X : Faults.
Variable E : Env.

(** [main()], with [args] standing for [sys.argv[1:]]. *)
Definition main (args : list string) : M Exit :=
  match args with
  | [] => ret (exit 1)
  | command :: rest =>
      let command := lower command in
      if command =? "set" then
        match rest with
        | cpu_limit :: memory_limit :: _ =>
            result <- set_resource_limits X E (Some cpu_limit) (Some memory_limit) ;;
            if success result then ret (exit 0) else ret (exit 1)
        | _ => ret (exit 1)
        end
      else if command =? "reset" then
        result <- reset_resource_limits X E ;;
        if success result then ret (exit 0) else ret (exit 1)
      else if command =? "status" then
        get_current_limits X E ;;;
        verify_container_status X E ;;;
        ret (exit 0)
      else ret (exit 1)
  end.

(** [applyLimits] once for every specification of the list, in order. *)
Fixpoint apply_all (specs : list (option string * option string)) : M unit :=
  match specs with
  | [] => ret tt
  | (cpu_limit, memory_limit) :: rest =>
      set_resource_limits X E cpu_limit memory_limit ;;; apply_all rest
  end.

End Script.

(** Steps 3 to 6 of [set_resource_limits] (lines 49 to 93), the part that
    runs once the manifest is written. *)
Definition recreate_and_verify (X : Faults) (E : Env)
           (cpu_limit memory_limit : option string) : M (Result Applied) :=
  r <- try_sh X E DockerRm ;;
  match r with
  | inl e => set_exception e
  | inr _ =>
      r <- try_sh X E ComposeUpForceRecreate ;;
      match r with
      | inl e => set_exception e
      | inr start_result =>
          if negb (returncode start_result =? 0)%Z then
            ret (Failed {| message := "Failed to start container: "
                                        ++ stderr start_result;
                           error := START_CONTAINER_FAILED |})
          else
            verify_result <- verify_container_status X E ;;
            match verify_result with
            | Failed f => ret (Failed f)
            | Success v =>
                sleep ;;;
                current <- get_current_limits X E ;;
                ret (Success
                       {| applied_message :=
                            "Resource limits applied successfully";
                          limits := (cpu_limit, memory_limit);
                          current_limits := current;
                          container_status := status v |})
            end
      end
  end.

(** "Applying [resetLimits()] after any number of prior [applyLimits(spec)]
    calls restores the manifest to byte-identical baseline content", the
    file writes succeeding. *)
Definition reset_always_restores : Prop :=
  forall (X : Faults) (E : Env) (specs : list (option string * option string))
         (w : World),
    write_error w = None ->
    (forall w' content, write_raised X w' content = None) ->
    manifest (snd (reset_resource_limits X E (snd (apply_all X E specs w))))
    = inl original_content.


(** The stop command cannot be started once the manifest has been written:
    [subprocess.run] raises. *)
Definition stop_raises_after_write : Faults :=
  {| raised := fun w c =>
       match c with
       | ComposeDown =>
           if existsb (fun e => match e with Wrote _ => true | _ => false end)
                      (trace w)
           then Some "[Errno 12] Cannot allocate memory" else None
       | _ => None
       end;
     spawn_raised := fun _ _ => None;
     output_raised := fun _ _ => None;
     write_raised := fun _ _ => None |}.

(** The removal of the old container cannot be started: [subprocess.run]
    raises. *)
Definition rm_raises : Faults :=
  {| raised := fun _ c =>
       match c with
       | DockerRm => Some "[Errno 12] Cannot allocate memory"
       | _ => None
       end;
     spawn_raised := fun _ _ => None;
     output_raised := fun _ _ => None;
     write_raised := fun _ _ => None |}.

(** The disk fills up while the manifest is written: the file is left
    empty. *)
Definition disk_full : Faults :=
  {| raised := fun _ _ => None;
     spawn_raised := fun _ _ => None;
     output_raised := fun _ _ => None;
     write_raised := fun _ _ =>
       Some ("[Errno 28] No space left on device", EmptyString) |}.

End Full.

(** ** The dispatcher's calls of the script, with their exceptions *)

Module FullGateway.

Import Gateway Full.

Section WithEnv.

Variable X : Faults.
Variable E : Env.

(** An argument with a NUL character: [subprocess.run] raises
    [ValueError("embedded null byte")] before anything is started. *)
Definition embedded_null (parts : list string) : bool :=
  existsb (Loop.has_char zero) parts.

(** [subprocess.run(parts, capture_output=True, text=True)] for
    [parts = ["python3", "resource_manager.py", ...]]: the exception, or a
    run of the script of this repository on the remaining arguments. *)
Definition python3 (parts : list string) : M (string + ResourceManager.Exit) :=
  fun w =>
    if embedded_null parts then (inl "embedded null byte", w)
    else
      match spawn_raised X w parts with
      | Some e => (inl e, w)
      | None =>
          let (r, w') := Full.main X E (skipn 2 parts) w in
          match output_raised X w' parts with
          | Some e => (inl e, w')
          | None => (inr r, w')
          end
      end.

Definition set_resource_limits (command : string) : M string :=
  match split1 ":" command with
  | _ :: limits_data :: _ =>
      let (cpu_limit, memory_limit) :=
        parse_pairs (split "," limits_data) None None in
      if negb (given cpu_limit) && negb (given memory_limit) then
        ret "RESOURCE_LIMITS_ERROR:No limits specified"
      else
        r <- python3 (cmd_parts cpu_limit memory_limit) ;;
        match r with
        | inl e => ret ("RESOURCE_LIMITS_ERROR:" ++ e)
        | inr result =>
            if (ResourceManager.exit_code result =? 0)%Z then
              ret ("RESOURCE_LIMITS_SET:CPU=" ++ fmt cpu_limit
                     ++ ",Memory=" ++ fmt memory_limit)
            else
              ret ("RESOURCE_LIMITS_ERROR:" ++ ResourceManager.err_output result)
        end
  | _ => ret "RESOURCE_LIMITS_ERROR:list index out of range"
  end.

Definition reset_resource_limits : M string :=
  r <- python3 ["python3"; "resource_manager.py"; "reset"] ;;
  match r with
  | inl e => ret ("RESOURCE_LIMITS_ERROR:" ++ e)
  | inr result =>
      if (ResourceManager.exit_code result =? 0)%Z then ret "RESOURCE_LIMITS_RESET"
      else ret ("RESOURCE_LIMITS_ERROR:" ++ ResourceManager.err_output result)
  end.

End WithEnv.

End FullGateway.

(** * Properties *)

(** ** Facts about the text primitives *)

Module TextFacts.

Lemma append_empty_r (s : string) : s ++ EmptyString = s.
Proof. induction s as [|c s IH]; simpl; [reflexivity | now rewrite IH]. Qed.

Lemma append_assoc (a b c : string) : (a ++ b) ++ c = a ++ b ++ c.
Proof. induction a as [|x a IH]; simpl; [reflexivity | now rewrite IH]. Qed.

Lemma drop_empty (n : nat) : drop n EmptyString = EmptyString.
Proof. destruct n; reflexivity. Qed.

Lemma drop_add (a b : nat) (s : string) : drop (a + b) s = drop b (drop a s).
Proof.
  revert s; induction a as [|a IH]; intros s; simpl; [reflexivity|].
  destruct s as [|c s]; [now rewrite drop_empty | apply IH].
Qed.

Lemma drop_length_le (n : nat) (s : string) :
  String.length (drop n s) <= String.length s.
Proof.
  revert s; induction n as [|n IH]; intros s; simpl; [lia|].
  destruct s as [|c s]; simpl; [lia | specialize (IH s); lia].
Qed.

Lemma drop_spaces (s : string) : drop (spaces s) s = lstrip s.
Proof.
  induction s as [|c s IH]; simpl; [reflexivity|].
  destruct (is_space c); simpl; [exact IH | reflexivity].
Qed.

Lemma strip_prefix_app (p s r : string) :
  strip_prefix p s = Some r -> s = p ++ r.
Proof.
  revert s; induction p as [|a p IH]; intros s H; simpl in *.
  - now inversion H.
  - destruct s as [|b s]; [discriminate|].
    destruct (Ascii.eqb a b) eqn:Hab; [|discriminate].
    apply Ascii.eqb_eq in Hab; subst b. now rewrite (IH s H).
Qed.

Lemma drop_app_length (p r : string) : drop (String.length p) (p ++ r) = r.
Proof. induction p as [|a p IH]; simpl; [now destruct r | exact IH]. Qed.

Lemma contains_cons (p : string) (c : ascii) (s : string) :
  contains p (String c s) = startswith (String c s) p || contains p s.
Proof. reflexivity. Qed.

Lemma contains_cons_false (p : string) (c : ascii) (s : string) :
  contains p (String c s) = false ->
  startswith (String c s) p = false /\ contains p s = false.
Proof. rewrite contains_cons. apply orb_false_elim. Qed.

(** A pattern without line feed is found at the head of a text exactly when
    it is found at the head of the first line of the text. *)
Lemma startswith_first_line (p : string) :
  one_line p = true ->
  forall t, startswith t p = startswith (first_line t) p.
Proof.
  unfold startswith.
  induction p as [|a p IH]; intros Hp t; simpl in *; [reflexivity|].
  apply andb_true_iff in Hp as [Ha Hp].
  destruct t as [|b t]; simpl; [reflexivity|].
  destruct (Ascii.eqb b "010"%char) eqn:Hb; simpl.
  - apply Ascii.eqb_eq in Hb; subst b.
    destruct (Ascii.eqb a "010"%char); [discriminate | reflexivity].
  - destruct (Ascii.eqb a b); [apply IH; exact Hp | reflexivity].
Qed.


End TextFacts.

(** ** Facts about the removal of the section *)

Module ManifestFacts.

Import Manifest TextFacts.

Lemma section_end_first_line (s : string) :
  section_end s = true -> first_line s = EmptyString.
Proof.
  destruct s as [|c s]; simpl; [reflexivity|].
  destruct (Ascii.eqb c "010"%char); [reflexivity | discriminate].
Qed.

Lemma lazy_any_end (s : string) : section_end (drop (lazy_any s) s) = true.
Proof.
  induction s as [|c s IH]; [reflexivity|].
  cbn [lazy_any].
  destruct (section_end (String c s)) eqn:He; [exact He | exact IH].
Qed.

(** A match starts at a line feed, is not empty, and ends where the
    lookahead holds. *)
Lemma match_deploy_inv (c : ascii) (s : string) (n : nat) :
  match_deploy (String c s) = Some n ->
  c = "010"%char /\ exists k, n = S k /\ section_end (drop k s) = true.
Proof.
  unfold match_deploy.
  destruct (Ascii.eqb c "010"%char) eqn:Hc; [|discriminate].
  destruct (strip_prefix "deploy:" (lstrip s)) as [r|] eqn:Hr; [|discriminate].
  intros H; inversion H; subst n; clear H.
  split; [now apply Ascii.eqb_eq|].
  exists (spaces s + 7 + lazy_any r). split; [reflexivity|].
  rewrite !drop_add, drop_spaces.
  rewrite (strip_prefix_app _ _ _ Hr).
  change 7 with (String.length "deploy:").
  rewrite drop_app_length. apply lazy_any_end.
Qed.

Lemma sub_from_drop (s : string) :
  forall k, sub_from k s = sub_from 0 (drop k s).
Proof.
  induction s as [|c s IH]; intros k.
  - now destruct k.
  - destruct k as [|k]; [reflexivity|]. simpl. apply IH.
Qed.

(** The removal keeps the first line of the text. *)
Lemma first_line_sub (n : nat) :
  forall s, String.length s <= n -> first_line (sub_from 0 s) = first_line s.
Proof.
  induction n as [|n IH]; intros s Hn.
  - destruct s; [reflexivity | simpl in Hn; lia].
  - destruct s as [|c s]; [reflexivity|].
    simpl in Hn. cbn [sub_from].
    destruct (match_deploy (String c s)) as [[|k]|] eqn:Hm.
    + cbn [first_line]. rewrite IH by lia. reflexivity.
    + apply match_deploy_inv in Hm as [-> [k' [Hk He]]].
      injection Hk as <-.
      rewrite sub_from_drop, IH.
      * now rewrite (section_end_first_line _ He).
      * pose proof (drop_length_le k s). lia.
    + cbn [first_line]. rewrite IH by lia. reflexivity.
Qed.




End ManifestFacts.

(** ** Facts about the float model *)

Module PyFloatFacts.

Import PyFloat.
Open Scope Z_scope.

(** Rounding to nearest moves a quotient by half a unit at most. *)
Lemma round_half_even_error (n d : Z) :
  0 <= n -> 0 < d -> 2 * Z.abs (round_half_even n d * d - n) <= d.
Proof.
  intros Hn Hd. unfold round_half_even. cbv zeta.
  pose proof (Z.div_mod n d ltac:(lia)) as Hdm.
  pose proof (Z.mod_pos_bound n d Hd) as Hr.
  set (q := n / d) in *. set (r := n mod d) in *. clearbody q r.
  destruct (Z.compare_spec (2 * r) d) as [C|C|C];
    [destruct (Z.even q)|..]; lia.
Qed.

Lemma round_half_even_nonneg (n d : Z) :
  0 <= n -> 0 < d -> 0 <= round_half_even n d.
Proof.
  intros Hn Hd. unfold round_half_even. cbv zeta.
  pose proof (Z.div_pos n d Hn Hd).
  destruct (2 * (n mod d) ?= d); [destruct (Z.even _)|..]; lia.
Qed.

Lemma log2_quot_le (n d : Z) : log2_quot n d <= Z.log2 n - Z.log2 d.
Proof. unfold log2_quot. destruct (ge_pow2 n d _); lia. Qed.

(** The quotient of a positive integer below [2^1023] by a non-zero
    integer is a float: nothing overflows. *)
Lemma true_div_defined (a b : Z) :
  0 < a < 2 ^ 1023 -> b <> 0 -> exists x, true_div a b = Some x.
Proof.
  intros [Ha Hlt] Hb. unfold true_div.
  destruct (b =? 0) eqn:Hb0; [apply Z.eqb_eq in Hb0; contradiction|].
  destruct (Z.abs a =? 0) eqn:Ha0; [eauto|].
  assert (Hl : Z.log2 (Z.abs a) < 1023).
  { rewrite Z.abs_eq by lia. apply Z.log2_lt_pow2; assumption. }
  pose proof (Z.log2_nonneg (Z.abs b)) as Hd.
  pose proof (log2_quot_le (Z.abs a) (Z.abs b)) as Hq.
  set (e := Z.max (log2_quot (Z.abs a) (Z.abs b) - 52) (-1074)) in *.
  assert (He : e <= 970) by (subst e; lia).
  replace (971 <? e) with false by (symmetry; apply Z.ltb_ge; lia).
  replace (e =? 971) with false by (symmetry; apply Z.eqb_neq; lia).
  simpl. eauto.
Qed.

(** The quotient of two positive integers is not negative. *)
Lemma true_div_sign (n d : Z) (x : float) :
  0 < n -> 0 < d -> true_div n d = Some x -> fneg x = false.
Proof.
  intros Hn Hd. unfold true_div.
  replace (n <? 0) with false by (symmetry; apply Z.ltb_ge; lia).
  replace (d <? 0) with false by (symmetry; apply Z.ltb_ge; lia).
  destruct (d =? 0); [discriminate|].
  destruct (Z.abs n =? 0); [intros H; now inversion H|].
  destruct (_ || _); [discriminate | intros H; now inversion H].
Qed.

(** The distance between [n / d] and what is printed of it with [k]
    decimals.  When the quotient is below [2^(53 - E0)], the integer
    [t = scaled k x] that is printed (with the point [k] digits from the
    right) satisfies [|t / 10^k - n / d| <= (1/2 + 10^k / 2^(E0 + 1)) / 10^k]:
    half a unit of the last decimal for the printing, and a share of it for
    the rounding of the quotient to a float. *)
Lemma scaled_error (k E0 n d : Z) (x : float) :
  0 < n -> 0 < d -> 0 <= k -> 0 < E0 <= 1074 ->
  Z.log2 n - Z.log2 d <= 52 - E0 ->
  true_div n d = Some x ->
  2 ^ (E0 + 1) * Z.abs (scaled k x * d - 10 ^ k * n) <= (2 ^ E0 + 10 ^ k) * d.
Proof.
  intros Hn Hd Hk HE Hlog. unfold true_div.
  replace (d =? 0) with false by (symmetry; apply Z.eqb_neq; lia).
  rewrite (Z.abs_eq n), (Z.abs_eq d) by lia.
  replace (n =? 0) with false by (symmetry; apply Z.eqb_neq; lia).
  pose proof (log2_quot_le n d) as Hq.
  set (e := Z.max (log2_quot n d - 52) (-1074)) in *.
  assert (He : e <= - E0) by (subst e; lia).
  replace (0 <=? e) with false by (symmetry; apply Z.leb_gt; lia).
  replace (971 <? e) with false by (symmetry; apply Z.ltb_ge; lia).
  replace (e =? 971) with false by (symmetry; apply Z.eqb_neq; lia).
  cbn [orb andb]. intros H; inversion H; subst x; clear H.
  unfold scaled. cbn [fexp fman].
  replace (0 <=? e) with false by (symmetry; apply Z.leb_gt; lia).
  assert (HP : 2 ^ (- e) = 2 ^ E0 * 2 ^ (- e - E0)).
  { rewrite <- Z.pow_add_r by lia. f_equal. lia. }
  assert (Hc : 1 <= 2 ^ (- e - E0)).
  { pose proof (Z.pow_pos_nonneg 2 (- e - E0) ltac:(lia) ltac:(lia)). lia. }
  assert (HE0 : 0 < 2 ^ E0) by (apply Z.pow_pos_nonneg; lia).
  assert (H10 : 0 < 10 ^ k) by (apply Z.pow_pos_nonneg; lia).
  set (c := 2 ^ (- e - E0)) in *.
  set (P := 2 ^ (- e)) in *.
  assert (HPpos : 0 < P) by nia.
  pose proof (round_half_even_error (n * P) d ltac:(nia) Hd) as R1.
  pose proof (round_half_even_nonneg (n * P) d ltac:(nia) Hd) as M0.
  set (m := round_half_even (n * P) d) in *.
  pose proof (round_half_even_error (m * 10 ^ k) P ltac:(nia) HPpos) as R2.
  set (t := round_half_even (m * 10 ^ k) P) in *.
  set (T := 10 ^ k) in *.
  assert (Hsplit : (t * d - T * n) * P
                   = (t * P - m * T) * d + T * (m * d - n * P)) by ring.
  assert (Hbound : 2 * (Z.abs (t * d - T * n) * P) <= P * d + T * d).
  { rewrite <- (Z.abs_eq P) at 1 by lia. rewrite <- Z.abs_mul, Hsplit.
    pose proof (Z.abs_triangle ((t * P - m * T) * d) (T * (m * d - n * P)))
      as Htri.
    rewrite !Z.abs_mul in Htri.
    rewrite (Z.abs_eq d), (Z.abs_eq T) in Htri by lia.
    nia. }
  rewrite Z.pow_add_r by lia. change (2 ^ 1) with 2.
  set (A := Z.abs (t * d - T * n)) in *.
  rewrite HP in Hbound.
  assert (c * (2 ^ E0 * 2 * A) <= c * ((2 ^ E0 + T) * d)) by nia.
  apply Z.mul_le_mono_pos_l with (p := c); [lia | assumption].
Qed.

(** A quota below [2^20] microseconds over a positive period: the tenths
    [t] that [format_1f] prints are within [1/2 + 10/2^34] of
    [10 * q / p]. *)
Lemma cpu_count_error (q p : Z) (x : float) :
  0 < q < 2 ^ 20 -> 0 < p -> true_div q p = Some x ->
  2 ^ 34 * Z.abs (scaled 1 x * p - 10 * q) <= (2 ^ 33 + 10) * p.
Proof.
  intros [Hq Hlt] Hp Hx.
  assert (Z.log2 q < 20) by (apply Z.log2_lt_pow2; assumption).
  pose proof (Z.log2_nonneg p).
  exact (scaled_error 1 33 q p x Hq Hp ltac:(lia) ltac:(lia) ltac:(lia) Hx).
Qed.

(** A memory limit below [2^63] bytes: the tenths of GiB that are printed
    are within [1/2 + 10/2^21] of [10 * b / 2^30], and the MiB within
    [1/2 + 1/2^11] of [b / 2^20]. *)
Lemma memory_error (b : Z) (x : float) :
  0 < b < 2 ^ 63 ->
  (true_div b (2 ^ 30) = Some x ->
   2 ^ 21 * Z.abs (scaled 1 x * 2 ^ 30 - 10 * b) <= (2 ^ 20 + 10) * 2 ^ 30) /\
  (true_div b (2 ^ 20) = Some x ->
   2 ^ 11 * Z.abs (scaled 0 x * 2 ^ 20 - b) <= (2 ^ 10 + 1) * 2 ^ 20).
Proof.
  intros [Hb Hlt].
  assert (Z.log2 b < 63) by (apply Z.log2_lt_pow2; assumption).
  split; intros Hx.
  - change (Z.log2 b < 63) with (Z.log2 b < 63) in H.
    assert (Hl : Z.log2 b - Z.log2 (2 ^ 30) <= 52 - 20).
    { rewrite Z.log2_pow2 by lia. lia. }
    exact (scaled_error 1 20 b (2 ^ 30) x Hb ltac:(lia) ltac:(lia) ltac:(lia) Hl Hx).
  - assert (Hl : Z.log2 b - Z.log2 (2 ^ 20) <= 52 - 10).
    { rewrite Z.log2_pow2 by lia. lia. }
    pose proof (scaled_error 0 10 b (2 ^ 20) x Hb ltac:(lia) ltac:(lia)
                             ltac:(lia) Hl Hx) as H0.
    change (10 ^ 0) with 1 in H0. rewrite Z.mul_1_l in H0. exact H0.
Qed.

End PyFloatFacts.

(** ** The orchestrator *)

Module OrchestratorFacts.

Import Manifest ManifestFacts TextFacts ResourceManager Scenario Claims.

Ltac unfold_ops :=
  unfold set_resource_limits, reset_resource_limits, update_compose_file,
    verify_container_status, get_current_limits, sleep, sh, bind, ret, log.

(** The pattern applied to a freshly inserted section takes the line
    [deploy:] and nothing more: the line after it starts with a letter, so
    the lookahead holds at once. *)
Lemma match_deploy_takes_one_line (cpu_limit memory_limit : option string)
      (half rest : string) :
  match_deploy (nl ++ limits_section cpu_limit memory_limit half ++ rest)
  = Some 12.
Proof. reflexivity. Qed.

(** C1, as the code behaves: patching the baseline manifest twice with
    cpu 0.5 and memory 512M does not give the manifest of one patch.  Both
    patches succeed; the second removes only the line [deploy:] of the old
    section and inserts a new section in front of the seven lines that
    remain. *)
Theorem update_compose_file_twice_leaves_orphans :
  let apply := update_compose_file healthy (Some "0.5") (Some "512M") in
  let section := limits_section (Some "0.5") (Some "512M") "0.25" in
  let once := snd (apply fresh) in
  let twice := snd (apply once) in
  fst (apply fresh) = Success tt /\
  fst (apply once) = Success tt /\
  manifest once = inl (original_content ++ nl ++ section) /\
  manifest twice
    = inl (original_content ++ nl ++ section ++ nl
             ++ orphan (Some "0.5") (Some "512M") "0.25") /\
  manifest twice <> manifest once.
Proof.
  cbv zeta. repeat split; try (vm_compute; reflexivity).
  vm_compute. discriminate.
Qed.

(** When the stop step fails, [set_resource_limits] returns the failure
    with the diagnostic of the tool, having run that one command and left the
    manifest alone. *)
Lemma set_resource_limits_stop_failed (E : Env) (cpu_limit memory_limit : option string)
      (w : World) :
  returncode (run E w ComposeDown) <> 0%Z ->
  set_resource_limits E cpu_limit memory_limit w
  = (Failed {| message := "Failed to stop container: "
                            ++ stderr (run E w ComposeDown);
               error := STOP_CONTAINER_FAILED |},
     log (Ran ComposeDown) w).
Proof.
  intros H. unfold_ops.
  apply Z.eqb_neq in H. now rewrite H.
Qed.

(** The script writes nothing to its standard error, whatever it is asked
    and however it ends. *)
Lemma main_err_output_empty (E : Env) (args : list string) (w : World) :
  err_output (fst (main E args w)) = EmptyString.
Proof.
  unfold main.
  destruct args as [|command rest]; [reflexivity|].
  destruct (lower command =? "set").
  { destruct rest as [|c [|m rest]]; try reflexivity.
    unfold bind.
    destruct (set_resource_limits E (Some c) (Some m) w) as [r w'].
    destruct (success r); reflexivity. }
  destruct (lower command =? "reset").
  { unfold bind.
    destruct (reset_resource_limits E w) as [r w'].
    destruct (success r); reflexivity. }
  destruct (lower command =? "status"); [|reflexivity].
  unfold bind.
  destruct (get_current_limits E w) as [l w1].
  destruct (verify_container_status E w1) as [v w2]. reflexivity.
Qed.

(** C2, as the code behaves: with a stop step that fails with the
    diagnostic "permission denied", [set_resource_limits] returns the
    failure STOP_CONTAINER_FAILED with that diagnostic, runs nothing else
    and leaves the manifest alone, but the dispatcher answers
    RESOURCE_LIMITS_ERROR: with nothing after the colon. *)
Theorem stop_failure_response_has_no_diagnostic :
  set_resource_limits stop_fails (Some "0.5") (Some "512M") fresh
  = (Failed {| message := "Failed to stop container: permission denied" ++ nl;
               error := STOP_CONTAINER_FAILED |},
     {| manifest := inl original_content; write_error := None;
        trace := [Ran ComposeDown] |}) /\
  Gateway.process_obc_command stop_fails
    "SET_RESOURCE_LIMITS:cpu=0.5,memory=512M" fresh
  = (Some "RESOURCE_LIMITS_ERROR:",
     {| manifest := inl original_content; write_error := None;
        trace := [Ran ComposeDown] |}).
Proof. split; vm_compute; reflexivity. Qed.

(** [reset_resource_limits] never reports a failed stop: the outcome of the
    stop command is not looked at. *)
Lemma reset_never_stop_failed (E : Env) (w : World) (f : Failure) :
  fst (reset_resource_limits E w) = Failed f ->
  error f <> STOP_CONTAINER_FAILED.
Proof.
  unfold_ops. simpl.
  destruct (write_error w); simpl.
  - intros H; inversion H; discriminate.
  - match goal with |- context [negb ?b] => destruct b end; simpl;
      intros H; inversion H; discriminate.
Qed.

(** Whatever the stop command returns, a reset writes the baseline and
    starts the instance. *)
Lemma reset_whatever_the_stop (E : Env) (w : World) :
  write_error w = None ->
  snd (reset_resource_limits E w)
  = {| manifest := inl original_content; write_error := None;
       trace := trace w ++ [Ran ComposeDown; Wrote original_content;
                            Ran ComposeUp] |}.
Proof.
  intros H. unfold_ops. simpl. rewrite H. simpl.
  match goal with |- context [negb ?b] => destruct b end;
    simpl; now rewrite <- !app_assoc.
Qed.

(** C3, as the code behaves: with a stop step that fails,
    [reset_resource_limits] still overwrites a patched manifest with the
    baseline, starts the instance and returns success. *)
Theorem reset_goes_on_after_stop_failure :
  let patched :=
    {| manifest := inl (original_content ++ nl
                          ++ limits_section (Some "0.5") (Some "512M") "0.25");
       write_error := None; trace := [] |} in
  returncode (run stop_fails patched ComposeDown) = 1%Z /\
  reset_resource_limits stop_fails patched
  = (Success {| reset_message := "Resource limits reset to default (unlimited)";
                reset_limits := {| cpu := "unlimited"; memory := "unlimited" |} |},
     {| manifest := inl original_content; write_error := None;
        trace := [Ran ComposeDown; Wrote original_content; Ran ComposeUp] |}).
Proof. split; vm_compute; reflexivity. Qed.

(** *** Whether the manifest can be opened for writing never changes *)

Lemma keeps_ret {A} (a : A) : keeps (ret a).
Proof. intros w; reflexivity. Qed.

Lemma keeps_bind {A B} (m : M A) (k : A -> M B) :
  keeps m -> (forall a, keeps (k a)) -> keeps (bind m k).
Proof.
  intros Hm Hk w. unfold bind.
  specialize (Hm w). destruct (m w) as [a w1]. simpl in Hm.
  now rewrite Hk.
Qed.

Lemma keeps_sh (E : Env) (c : Cmd) : keeps (sh E c).
Proof. intros w; reflexivity. Qed.

Lemma keeps_sleep : keeps sleep.
Proof. intros w; reflexivity. Qed.

Lemma keeps_update (E : Env) (cpu_limit memory_limit : option string) :
  keeps (update_compose_file E cpu_limit memory_limit).
Proof.
  intros w. unfold update_compose_file.
  destruct (manifest w); [|reflexivity].
  destruct (half_cpus E cpu_limit); [|reflexivity].
  destruct (write_error w) eqn:Hw; simpl; congruence.
Qed.

Ltac keeps_step :=
  first [ apply keeps_ret | apply keeps_sh | apply keeps_sleep
        | apply keeps_update
        | apply keeps_bind; [|intros ?]
        | match goal with
          | |- keeps (if ?b then _ else _) => destruct b
          | |- keeps (match ?x with _ => _ end) => destruct x
          end ].

Lemma keeps_verify (E : Env) : keeps (verify_container_status E).
Proof. unfold verify_container_status. repeat keeps_step. Qed.

Lemma keeps_get_current_limits (E : Env) : keeps (get_current_limits E).
Proof. unfold get_current_limits. repeat keeps_step. Qed.

Lemma set_resource_limits_write_error (E : Env) (cpu_limit memory_limit : option string) :
  keeps (set_resource_limits E cpu_limit memory_limit).
Proof.
  unfold set_resource_limits.
  repeat first [ apply keeps_verify | apply keeps_get_current_limits | keeps_step ].
Qed.

Lemma apply_all_write_error (E : Env) (specs : list (option string * option string)) :
  forall w, write_error (snd (apply_all E specs w)) = write_error w.
Proof.
  induction specs as [|[c m] specs IH]; intros w; [reflexivity|].
  cbn [apply_all]. unfold bind.
  pose proof (set_resource_limits_write_error E c m w) as H.
  destruct (set_resource_limits E c m w) as [r w1]. simpl in H.
  now rewrite IH.
Qed.

(** *** The read-back of the applied limits *)

Section ReadBack.

Import PyFloat PyFloatFacts.
Open Scope Z_scope.

Lemma positive_some (x : option Z) (v : Z) :
  x = Some v -> 0 < v -> positive x = Some v.
Proof.
  intros -> H. unfold positive. apply Z.ltb_lt in H. now rewrite H.
Qed.

Lemma positive_none (x : option Z) : not_positive x -> positive x = None.
Proof.
  destruct x as [v|]; simpl; [|reflexivity].
  intros H. apply Z.ltb_ge in H. now rewrite H.
Qed.

Lemma positive_inv (x : option Z) (v : Z) :
  positive x = Some v -> x = Some v /\ 0 < v.
Proof.
  destruct x as [u|]; simpl; [|discriminate].
  destruct (0 <? u) eqn:H; [|discriminate].
  intros E; inversion E; subst. split; [reflexivity | now apply Z.ltb_lt].
Qed.

Lemma cpu_of_defined (hc : HostConfig) :
  convertible hc -> exists c, cpu_of hc = Some c.
Proof.
  intros [Hq [_ Hp]]. unfold cpu_of.
  destruct (positive (CpuQuota hc)) as [q|] eqn:Hpos.
  - apply positive_inv in Hpos as [Hcq Hq0].
    destruct (true_div_defined q
                (match CpuPeriod hc with Some p => p | None => 100000 end))
      as [x Hx].
    + split; [assumption | now apply Hq].
    + specialize (Hp q Hcq Hq0).
      destruct (CpuPeriod hc) as [p|]; [congruence | lia].
    + rewrite Hx. simpl. eauto.
  - destruct (positive (CpuCount hc)); eauto.
Qed.

Lemma memory_of_defined (hc : HostConfig) :
  convertible hc -> exists m, memory_of hc = Some m.
Proof.
  intros [_ [Hb _]]. unfold memory_of.
  destruct (positive (Memory hc)) as [b|] eqn:Hpos; [|eauto].
  apply positive_inv in Hpos as [Hm Hb0]. specialize (Hb b Hm).
  destruct (1024 ^ 3 <=? b).
  - destruct (true_div_defined b (1024 ^ 3)) as [x Hx]; [lia | lia |].
    rewrite Hx. simpl. eauto.
  - destruct (1024 ^ 2 <=? b); [|eauto].
    destruct (true_div_defined b (1024 ^ 2)) as [x Hx]; [lia | lia |].
    rewrite Hx. simpl. eauto.
Qed.

(** What [get_current_limits] returns when the inspect query succeeds and
    its output parses. *)
Lemma get_current_limits_inspected (E : Env) (w : World) (info : ContainerInfo) :
  returncode (run E w DockerInspect) = 0 ->
  loads_inspect E (stdout (run E w DockerInspect)) = Some info ->
  fst (get_current_limits E w)
  = match limits_of_info info with Some l => l | None => unknown end.
Proof.
  intros Hrc Hl. unfold get_current_limits, bind, sh, ret. simpl.
  rewrite Hrc, Hl. simpl. destruct (limits_of_info info); reflexivity.
Qed.

(** C7, as amended: when the inspect query succeeds, its output parses
    and the values convert, the read-back is
    - for a positive quota [q] and a positive period [p], the float [q / p]
      printed with one decimal;
    - for a quota that is zero or unset, [unlimited] when the CPU count is
      zero or unset too, and the CPU count when that is positive;
    - for a positive memory [b], [b / 2^30] with one decimal and [G] when
      [2^30 <= b], [b / 2^20] without decimals and [M] when
      [2^20 <= b < 2^30], and [b] followed by [B] below that;
    - for a memory that is zero or unset, [unlimited]. *)
Theorem get_current_limits_readback
        (E : Env) (w : World) (info : ContainerInfo) (hc : HostConfig) :
  returncode (run E w DockerInspect) = 0 ->
  loads_inspect E (stdout (run E w DockerInspect)) = Some info ->
  HostConfig_ info = Some hc ->
  convertible hc ->
  let l := fst (get_current_limits E w) in
  (forall q p, CpuQuota hc = Some q -> CpuPeriod hc = Some p -> 0 < q -> 0 < p ->
     exists x, true_div q p = Some x /\ cpu l = format_1f x) /\
  (not_positive (CpuQuota hc) -> not_positive (CpuCount hc) ->
     cpu l = "unlimited"%string) /\
  (not_positive (CpuQuota hc) ->
     forall n, CpuCount hc = Some n -> 0 < n -> cpu l = str_of_Z n) /\
  (forall b, Memory hc = Some b -> 2 ^ 30 <= b ->
     exists x, true_div b (2 ^ 30) = Some x
               /\ memory l = (format_1f x ++ "G")%string) /\
  (forall b, Memory hc = Some b -> 2 ^ 20 <= b < 2 ^ 30 ->
     exists x, true_div b (2 ^ 20) = Some x
               /\ memory l = (format_0f x ++ "M")%string) /\
  (forall b, Memory hc = Some b -> 0 < b < 2 ^ 20 ->
     memory l = (str_of_Z b ++ "B")%string) /\
  (not_positive (Memory hc) -> memory l = "unlimited"%string).
Proof.
  intros Hrc Hl Hhc Hconv l.
  assert (El : l = fst (get_current_limits E w)) by reflexivity. clearbody l.
  rewrite (get_current_limits_inspected E w info Hrc Hl) in El.
  unfold limits_of_info in El. rewrite Hhc in El.
  destruct (cpu_of_defined hc Hconv) as [c Hc].
  destruct (memory_of_defined hc Hconv) as [m Hm].
  rewrite Hc, Hm in El. subst l. cbn [cpu memory].
  unfold cpu_of in Hc. unfold memory_of in Hm.
  change (1024 ^ 3) with (2 ^ 30) in Hm.
  change (1024 ^ 2) with (2 ^ 20) in Hm.
  repeat split.
  - intros q p Hq Hp Hq0 Hp0.
    rewrite (positive_some _ _ Hq Hq0), Hp in Hc.
    destruct (true_div q p) as [x|]; [|discriminate].
    exists x. split; [reflexivity | now inversion Hc].
  - intros Hq Hn.
    rewrite (positive_none _ Hq), (positive_none _ Hn) in Hc. now inversion Hc.
  - intros Hq n Hn Hn0.
    rewrite (positive_none _ Hq), (positive_some _ _ Hn Hn0) in Hc.
    now inversion Hc.
  - intros b Hb Hge.
    rewrite (positive_some _ _ Hb) in Hm by lia.
    apply Z.leb_le in Hge. rewrite Hge in Hm.
    destruct (true_div b (2 ^ 30)) as [x|]; [|discriminate].
    exists x. split; [reflexivity | now inversion Hm].
  - intros b Hb [Hge Hlt].
    rewrite (positive_some _ _ Hb) in Hm by lia.
    apply Z.leb_gt in Hlt. apply Z.leb_le in Hge. rewrite Hlt, Hge in Hm.
    destruct (true_div b (2 ^ 20)) as [x|]; [|discriminate].
    exists x. split; [reflexivity | now inversion Hm].
  - intros b Hb [Hb0 Hlt].
    rewrite (positive_some _ _ Hb Hb0) in Hm.
    assert (H30 : (2 ^ 30 <=? b) = false) by (apply Z.leb_gt; lia).
    apply Z.leb_gt in Hlt. rewrite H30, Hlt in Hm. now inversion Hm.
  - intros Hb. rewrite (positive_none _ Hb) in Hm. now inversion Hm.
Qed.

End ReadBack.

(** Half a CPU and 512 MiB read back as [0.5] and [512M]. *)
Lemma get_current_limits_readback_witness :
  convertible {| CpuQuota := Some 50000%Z; CpuPeriod := Some 100000%Z;
                 CpuCount := Some 0%Z; Memory := Some 536870912%Z |} /\
  fst (get_current_limits healthy fresh) = {| cpu := "0.5"; memory := "512M" |}.
Proof.
  assert (Hc : convertible {| CpuQuota := Some 50000%Z; CpuPeriod := Some 100000%Z;
                              CpuCount := Some 0%Z; Memory := Some 536870912%Z |}).
  { repeat split; simpl; intros; try discriminate;
      match goal with H : Some _ = Some _ |- _ => inversion H end;
      reflexivity. }
  split; [exact Hc|].
  destruct (get_current_limits_readback healthy fresh half_cpu_512M _
              eq_refl eq_refl eq_refl Hc)
    as [Hcpu [_ [_ [_ [Hmem _]]]]].
  destruct (Hcpu 50000%Z 100000%Z eq_refl eq_refl eq_refl eq_refl)
    as [x [Hx Hcx]].
  assert (Hr : (2 ^ 20 <= 536870912 < 2 ^ 30)%Z)
    by (split; [intros H; discriminate H | reflexivity]).
  destruct (Hmem 536870912%Z eq_refl Hr) as [y [Hy Hmy]].
  vm_compute in Hx. vm_compute in Hy.
  inversion Hx; subst x. inversion Hy; subst y.
  destruct (fst (get_current_limits healthy fresh)) as [c m].
  simpl in Hcx, Hmy. rewrite Hcx, Hmy. reflexivity.
Defined.

(** C7, as stated, fails: with a quota of zero and a CPU count of two the
    read-back of the CPU limit is [2], not [unlimited]. *)
Lemma zero_quota_reads_unlimited_fails : ~ zero_quota_reads_unlimited.
Proof.
  intros H.
  specialize (H counting fresh two_cpus _ eq_refl eq_refl eq_refl).
  assert (Hq : not_positive (Some 0%Z)) by (simpl; lia).
  specialize (H Hq). vm_compute in H. discriminate H.
Qed.

End OrchestratorFacts.

(** ** The dispatcher and the probe *)

Module GatewayFacts.

Import Manifest TextFacts Scenario Claims Gateway.

(** *** Unknown commands *)

(** C4, as amended: a line of ASCII characters that matches no entry of
    the table is answered with UNKNOWN_CMD: followed by the line trimmed and
    in upper case, and nothing is run.  (Outside ASCII, [str.strip] and
    [str.upper] do more than [strip] and [upper] here: a line made of
    [ping] and a no-break space is answered with PONG.) *)
Theorem unknown_command_response (E : Env) (line : string) (w : World) :
  Full.is_ascii line = true ->
  recognised line = false ->
  process_obc_command E line w
  = (Some ("UNKNOWN_CMD:" ++ upper (strip line)), w).
Proof.
  intros _ H. unfold recognised in H. cbn [existsb exact_commands] in H.
  unfold process_obc_command.
  set (command := upper (strip line)) in *.
  repeat match goal with
         | H : (_ || _) = false |- _ =>
             apply orb_false_elim in H; destruct H
         end.
  repeat match goal with
         | H : _ = false |- _ => rewrite H; clear H
         end.
  reflexivity.
Qed.

Lemma unknown_command_response_witness :
  Full.is_ascii " foo " = true /\
  recognised " foo " = false /\
  process_obc_command healthy " foo " fresh = (Some "UNKNOWN_CMD:FOO", fresh).
Proof.
  split; [reflexivity|]. split; [reflexivity|].
  exact (unknown_command_response healthy " foo " fresh eq_refl eq_refl).
Defined.

(** C4, as stated, fails: the line [foo] matches no entry and is answered
    with UNKNOWN_CMD:FOO. *)
Lemma unknown_echoes_the_line_fails : ~ unknown_echoes_the_line.
Proof.
  intros H. specialize (H healthy "foo" fresh eq_refl).
  vm_compute in H. discriminate H.
Qed.

(** *** The text prompt *)

Lemma rstrip_cons (c : ascii) (s : string) :
  is_space c = false -> rstrip (String c s) = String c (rstrip s).
Proof. intros H. cbn [rstrip]. rewrite H. now destruct (rstrip s). Qed.

(** What the dispatcher answers to a text prompt: the payload without its
    trailing blanks and in upper case, then [ OK]. *)
Lemma text_prompt_response (E : Env) (t : string) (w : World) :
  process_obc_command E ("TEXT_PROMPT:" ++ t) w
  = (Some (upper (rstrip t) ++ " OK"), w).
Proof.
  unfold process_obc_command, strip.
  cbn [append lstrip].
  replace (is_space "T") with false by reflexivity.
  repeat (rewrite rstrip_cons by reflexivity).
  reflexivity.
Qed.

(** C5, as the code behaves: the line TEXT_PROMPT:hello is answered with
    HELLO OK, the payload having gone through the case normalisation of the
    whole line. *)
Theorem text_prompt_hello_is_upper_cased :
  process_obc_command healthy "TEXT_PROMPT:hello" fresh
  = (Some "HELLO OK", fresh).
Proof. vm_compute. reflexivity. Qed.

(** *** The status probe *)

Lemma split_not_nil (sep : ascii) (s : string) : split sep s <> [].
Proof.
  induction s as [|c s IH]; simpl; [discriminate|].
  destruct (Ascii.eqb c sep); [discriminate|].
  destruct (split sep s); [contradiction | discriminate].
Qed.

(** A failed metric query degrades its own field to [N/A]. *)
Lemma metric_failed (r : ProcResult) :
  returncode r <> 0%Z -> metric r = "N/A".
Proof. intros H. unfold metric. apply Z.eqb_neq in H. now rewrite H. Qed.

(** The lifecycle status is the first field of what the query printed,
    whatever its exit status: the default [unknown] is never taken. *)
Lemma status_is_first_field
      (cpu_result mem_result mem_percent_result net_result block_result
       info_result : ProcResult) (timestamp : string) :
  lookup "status"
         (status_data cpu_result mem_result mem_percent_result net_result
                      block_result info_result timestamp)
  = Some (hd EmptyString (split "009" (strip (stdout info_result)))).
Proof.
  unfold status_data. cbn [lookup String.eqb Ascii.eqb Bool.eqb].
  pose proof (split_not_nil "009" (strip (stdout info_result))) as H.
  destruct (split "009" (strip (stdout info_result))); [contradiction|].
  reflexivity.
Qed.

(** The probe always answers with a status of ten fields. *)
Lemma get_container_status_total (E : Env) (w : World) :
  exists d,
    fst (get_container_status E w) = "CONTAINER_STATUS:" ++ json_dumps d /\
    map fst d
    = [ "container_name"; "status"; "cpu_percent"; "memory_usage";
        "memory_percent"; "network_io"; "block_io"; "started_at"; "image";
        "timestamp" ].
Proof.
  unfold get_container_status, bind, sh, ResourceManager.sh. simpl.
  eexists. split; reflexivity.
Qed.

(** C8, as the code behaves: with no instance, every query fails; the
    probe still answers, the metrics, the start time and the image read N/A,
    but the lifecycle status is the empty text, not [unknown]. *)
Theorem status_of_failed_query_is_empty :
  fst (get_container_status no_instance fresh)
  = "CONTAINER_STATUS:"
      ++ json_dumps
           [ ("container_name", "satlyt-container");
             ("status", EmptyString);
             ("cpu_percent", "N/A");
             ("memory_usage", "N/A");
             ("memory_percent", "N/A");
             ("network_io", "N/A");
             ("block_io", "N/A");
             ("started_at", "N/A");
             ("image", "N/A");
             ("timestamp", "2024-05-01T10:00:05.000000") ].
Proof. vm_compute. reflexivity. Qed.

(** *** One limit given *)

(** Whatever the limits asked for, a failed stop step is answered with
    RESOURCE_LIMITS_ERROR: and nothing after the colon. *)
Lemma set_resource_limits_stop_failed_response
      (E : Env) (w : World) (command head data : string)
      (cpu_limit memory_limit : option string) :
  split1 ":" command = [head; data] ->
  parse_pairs (split "," data) None None = (cpu_limit, memory_limit) ->
  given cpu_limit || given memory_limit = true ->
  returncode (run E w ComposeDown) <> 0%Z ->
  set_resource_limits E command w
  = ("RESOURCE_LIMITS_ERROR:", log (Ran ComposeDown) w).
Proof.
  intros Hs Hp Hg Hrc.
  unfold set_resource_limits. rewrite Hs, Hp.
  replace (negb (given cpu_limit) && negb (given memory_limit)) with false
    by (destruct (given cpu_limit), (given memory_limit); simpl in *; congruence).
  unfold bind, python3, cmd_parts.
  cbn [app skipn ResourceManager.main lower map_string].
  change (_ =? "set") with true. cbv iota.
  unfold bind.
  rewrite (OrchestratorFacts.set_resource_limits_stop_failed E _ _ w Hrc).
  reflexivity.
Qed.

(** The same through the dispatcher: the manifest gets the default of the
    limit that was not given, the answer says [None]. *)
Example cpu_only_through_the_dispatcher :
  let out := process_obc_command healthy "set_resource_limits:cpu=0.5" fresh in
  fst out = Some "RESOURCE_LIMITS_SET:CPU=0.5,Memory=None" /\
  manifest (snd out)
  = inl (original_content ++ nl ++ limits_section (Some "0.5") (Some "1G") "0.25").
Proof. split; vm_compute; reflexivity. Qed.

End GatewayFacts.

(** * Further properties of the code *)

(** ** The removal and the insertion of the section *)

Module ManifestMore.

Import Manifest TextFacts ManifestFacts.

Lemma contains_lstrip (p s : string) :
  contains p (lstrip s) = true -> contains p s = true.
Proof.
  induction s as [|c s IH]; [trivial|].
  cbn [lstrip]. destruct (is_space c); [|trivial].
  intros H. rewrite contains_cons, (IH H). apply orb_true_r.
Qed.

Lemma strip_prefix_contains (p s r : string) :
  strip_prefix p s = Some r -> contains p s = true.
Proof.
  intros H.
  assert (Hs : startswith s p = true) by (unfold startswith; now rewrite H).
  destruct s; simpl; now rewrite Hs.
Qed.

(** The pattern matches nowhere in a text without [deploy:]. *)
Lemma match_deploy_contains (s : string) (n : nat) :
  match_deploy s = Some n -> contains "deploy:" s = true.
Proof.
  destruct s as [|c s]; [discriminate|]. unfold match_deploy.
  destruct (Ascii.eqb c "010"%char); [|discriminate].
  destruct (strip_prefix "deploy:" (lstrip s)) as [r|] eqn:Hr; [|discriminate].
  intros _. rewrite contains_cons.
  rewrite (contains_lstrip _ _ (strip_prefix_contains _ _ _ Hr)).
  apply orb_true_r.
Qed.

Lemma sub_from_without_deploy (s : string) :
  contains "deploy:" s = false -> sub_from 0 s = s.
Proof.
  induction s as [|c s IH]; intros H; [reflexivity|].
  cbn [sub_from].
  destruct (match_deploy (String c s)) as [n|] eqn:Hm.
  - apply match_deploy_contains in Hm. congruence.
  - apply contains_cons_false in H as [_ H]. now rewrite (IH H).
Qed.

Lemma remove_deploy_sub (content : string) :
  remove_deploy content = sub_from 0 content.
Proof.
  unfold remove_deploy, re_sub_deploy.
  destruct (contains "deploy:" content) eqn:H; [reflexivity|].
  symmetry. now apply sub_from_without_deploy.
Qed.

(** The test ['deploy:' in content] of line 120 changes nothing: the
    pattern matches nowhere in a text without [deploy:], so the removal is
    the substitution on every text, with or without the test. *)
Theorem remove_deploy_is_the_substitution (content : string) :
  remove_deploy content = re_sub_deploy content.
Proof. apply remove_deploy_sub. Qed.

(** What the substitution keeps of a text starts with [deploy:] after its
    blanks only if the text did. *)
Lemma lstrip_sub_no_deploy (s : string) :
  strip_prefix "deploy:" (lstrip s) = None ->
  strip_prefix "deploy:" (lstrip (sub_from 0 s)) = None.
Proof.
  induction s as [|c s IH]; intros H; [exact H|].
  assert (Hm : match_deploy (String c s) = None).
  { unfold match_deploy. destruct (Ascii.eqb c "010"%char) eqn:Hc; [|reflexivity].
    apply Ascii.eqb_eq in Hc; subst c. cbn [lstrip] in H.
    change (is_space "010") with true in H. cbv iota in H. now rewrite H. }
  cbn [sub_from]. rewrite Hm.
  cbn [lstrip] in *. destruct (is_space c); [now apply IH|].
  assert (Hs : forall t, startswith t "deploy:" = false ->
                         strip_prefix "deploy:" t = None).
  { intros t. unfold startswith. now destruct (strip_prefix "deploy:" t). }
  apply Hs.
  rewrite (startswith_first_line "deploy:" eq_refl).
  cbn [first_line]. rewrite (first_line_sub (String.length s)) by lia.
  change (startswith (first_line (String c s)) "deploy:" = false).
  rewrite <- (startswith_first_line "deploy:" eq_refl).
  unfold startswith. now rewrite H.
Qed.

Lemma match_deploy_after_sub (c : ascii) (s : string) :
  match_deploy (String c s) = None ->
  match_deploy (String c (sub_from 0 s)) = None.
Proof.
  unfold match_deploy.
  destruct (Ascii.eqb c "010"%char); [|reflexivity].
  destruct (strip_prefix "deploy:" (lstrip s)) eqn:H; [discriminate|].
  intros _. now rewrite (lstrip_sub_no_deploy s H).
Qed.

Lemma sub_from_idempotent (n : nat) :
  forall s, String.length s <= n ->
            sub_from 0 (sub_from 0 s) = sub_from 0 s.
Proof.
  induction n as [|n IH]; intros s Hn.
  - destruct s; [reflexivity | simpl in Hn; lia].
  - destruct s as [|c s]; [reflexivity|]. simpl in Hn.
    cbn [sub_from].
    destruct (match_deploy (String c s)) as [[|k]|] eqn:Hm.
    + apply match_deploy_inv in Hm as [_ [k [Hk _]]]. discriminate.
    + rewrite (sub_from_drop s k). apply IH.
      pose proof (drop_length_le k s). lia.
    + cbn [sub_from]. rewrite (match_deploy_after_sub c s Hm).
      rewrite IH by lia. reflexivity.
Qed.

(** Removing the section twice is removing it once: what a removal leaves
    has no match of the pattern left. *)
Theorem remove_deploy_idempotent (content : string) :
  remove_deploy (remove_deploy content) = remove_deploy content.
Proof.
  rewrite !remove_deploy_sub.
  now apply (sub_from_idempotent (String.length content)).
Qed.

Lemma startswith_app (p x : string) : startswith (p ++ x) p = true.
Proof.
  unfold startswith. induction p as [|a p IH]; simpl; [reflexivity|].
  now rewrite Ascii.eqb_refl.
Qed.

Lemma startswith_contains (p t : string) :
  startswith t p = true -> contains p t = true.
Proof. intros H. destruct t; simpl; now rewrite H. Qed.

(** [replace] puts [new] where [old] first occurs. *)
Lemma replace_present (old new s : string) :
  old <> EmptyString ->
  contains old s = true -> contains new (replace old new s) = true.
Proof.
  intros Ho. unfold replace.
  induction s as [|c s IH]; intros H.
  - destruct old; [contradiction | discriminate].
  - cbn [replace_from]. rewrite contains_cons in H.
    destruct (startswith (String c s) old) eqn:Hs.
    + apply startswith_contains, startswith_app.
    + simpl in H. rewrite contains_cons, (IH H). apply orb_true_r.
Qed.

(** A first patch: when the manifest has the identity marker and no
    [deploy:] yet, what is written has the marker followed, on the next
    line, by the section with the limits asked for. *)
Theorem first_patch_inserts_the_section
        (cpu_limit memory_limit : option string) (half content : string) :
  contains "deploy:" content = false ->
  contains marker content = true ->
  contains (marker ++ nl ++ limits_section cpu_limit memory_limit half)
           (patch cpu_limit memory_limit half content) = true.
Proof.
  intros Hd Hm. unfold patch, remove_deploy. rewrite Hd.
  apply replace_present; [discriminate | exact Hm].
Qed.

Lemma first_patch_inserts_the_section_witness :
  contains (marker ++ nl ++ limits_section (Some "0.5") (Some "512M") "0.25")
           (patch (Some "0.5") (Some "512M") "0.25" original_content) = true.
Proof.
  exact (first_patch_inserts_the_section (Some "0.5") (Some "512M") "0.25"
           original_content eq_refl eq_refl).
Defined.

(** The patch of the baseline document, whatever the limits. *)
Lemma patch_baseline (cpu_limit memory_limit : option string) (half : string) :
  patch cpu_limit memory_limit half original_content
  = original_content ++ nl ++ limits_section cpu_limit memory_limit half.
Proof.
  unfold patch.
  change (remove_deploy original_content) with original_content.
  generalize (limits_section cpu_limit memory_limit half); intros sec.
  unfold replace.
  change (replace_from 0 marker (marker ++ nl ++ sec) original_content)
    with (original_content ++ nl ++ sec ++ EmptyString).
  now rewrite append_empty_r.
Qed.

End ManifestMore.

(** ** The orchestrator, step by step *)

Module OrchestratorMore.

Import Manifest TextFacts ManifestFacts ManifestMore ResourceManager Scenario
       Claims Loop Steps OrchestratorFacts.

(** [set_resource_limits] is the stop, the update and the steps that
    follow. *)
Lemma set_resource_limits_steps (E : Env) (cpu_limit memory_limit : option string) :
  set_resource_limits E cpu_limit memory_limit
  = (stop_result <- sh E ComposeDown ;;
     if negb (returncode stop_result =? 0)%Z then
       ret (Failed {| message := "Failed to stop container: "
                                   ++ stderr stop_result;
                      error := STOP_CONTAINER_FAILED |})
     else
       update_result <- update_compose_file E cpu_limit memory_limit ;;
       match update_result with
       | Failed f => ret (Failed f)
       | Success _ => recreate_and_verify E cpu_limit memory_limit
       end).
Proof. reflexivity. Qed.

(** *** Operations that leave the manifest alone *)

Lemma keeps_manifest_ret {A} (a : A) : keeps_manifest (ret a).
Proof. intros w; split; reflexivity. Qed.

Lemma keeps_manifest_bind {A B} (m : M A) (k : A -> M B) :
  keeps_manifest m -> (forall a, keeps_manifest (k a)) ->
  keeps_manifest (bind m k).
Proof.
  intros Hm Hk w. unfold bind.
  destruct (Hm w) as [H1 H2]. destruct (m w) as [a w1]. simpl in *.
  destruct (Hk a w1) as [H3 H4]. split; congruence.
Qed.

Lemma keeps_manifest_sh (E : Env) (c : Cmd) : keeps_manifest (sh E c).
Proof. intros w; split; reflexivity. Qed.

Lemma keeps_manifest_sleep : keeps_manifest sleep.
Proof. intros w; split; reflexivity. Qed.

Ltac manifest_step :=
  first [ apply keeps_manifest_ret | apply keeps_manifest_sh
        | apply keeps_manifest_sleep
        | apply keeps_manifest_bind; [|intros ?]
        | match goal with
          | |- keeps_manifest (if ?b then _ else _) => destruct b
          | |- keeps_manifest (match ?x with _ => _ end) => destruct x
          end ].

Lemma keeps_manifest_verify (E : Env) :
  keeps_manifest (verify_container_status E).
Proof. unfold verify_container_status. repeat manifest_step. Qed.

Lemma keeps_manifest_get_current_limits (E : Env) :
  keeps_manifest (get_current_limits E).
Proof. unfold get_current_limits. repeat manifest_step. Qed.

Lemma keeps_manifest_recreate (E : Env) (cpu_limit memory_limit : option string) :
  keeps_manifest (recreate_and_verify E cpu_limit memory_limit).
Proof.
  unfold recreate_and_verify.
  repeat first [ apply keeps_manifest_verify
               | apply keeps_manifest_get_current_limits | manifest_step ].
Qed.

(** *** What the steps after the update return *)

Ltac split_on H :=
  repeat (match type of H with
          | context [if ?b then _ else _] => destruct b eqn:?
          | context [match ?x with _ => _ end] => destruct x eqn:?
          end; cbn [fst snd] in H; try discriminate H).

Lemma verify_success (E : Env) (w : World) (v : Verified) :
  fst (verify_container_status E w) = Success v ->
  contains "Up" (status v) = true /\
  snd (verify_container_status E w) = log (Ran DockerPsStatus) w.
Proof.
  unfold verify_container_status, bind, sh, ret. cbn [fst snd].
  intros H. split_on H. inversion H; subst v; clear H. cbn [status].
  split; [|reflexivity].
  now apply negb_false_iff.
Qed.

Lemma verify_failure (E : Env) (w : World) (f : Failure) :
  fst (verify_container_status E w) = Failed f ->
  error f = CONTAINER_NOT_RUNNING \/ error f = CONTAINER_NOT_HEALTHY.
Proof.
  unfold verify_container_status, bind, sh, ret. cbn [fst snd].
  intros H. split_on H; inversion H; subst f; auto.
Qed.

Lemma get_current_limits_world (E : Env) (w : World) :
  snd (get_current_limits E w) = log (Ran DockerInspect) w.
Proof.
  unfold get_current_limits, bind, sh, ret. cbn [fst snd].
  repeat match goal with
         | |- context [if ?b then _ else _] => destruct b
         | |- context [match ?x with _ => _ end] => destruct x
         end; reflexivity.
Qed.

Lemma recreate_success (E : Env) (cpu_limit memory_limit : option string)
      (w : World) (a : Applied) :
  fst (recreate_and_verify E cpu_limit memory_limit w) = Success a ->
  limits a = (cpu_limit, memory_limit) /\
  contains "Up" (container_status a) = true /\
  trace (snd (recreate_and_verify E cpu_limit memory_limit w))
  = (trace w ++ recreation_events)%list.
Proof.
  unfold recreate_and_verify, bind, sh, sleep, ret. cbn [fst snd].
  destruct (negb _); [discriminate|].
  set (w2 := log (Ran ComposeUpForceRecreate) (log (Ran DockerRm) w)).
  pose proof (verify_success E w2) as Hv.
  destruct (verify_container_status E w2) as [[f|v] w3]; [discriminate|].
  cbn [fst snd] in *. destruct (Hv v eq_refl) as [Hup Hw3]. subst w3.
  pose proof (get_current_limits_world E (log Slept (log (Ran DockerPsStatus) w2)))
    as Hg.
  destruct (get_current_limits E _) as [cur w4]. cbn [fst snd] in *. subst w4.
  intros H; inversion H; subst a; clear H. cbn [limits container_status].
  repeat split; [assumption|].
  unfold w2, log, recreation_events. cbn [trace].
  now rewrite <- !app_assoc.
Qed.

Lemma recreate_failure (E : Env) (cpu_limit memory_limit : option string)
      (w : World) (f : Failure) :
  fst (recreate_and_verify E cpu_limit memory_limit w) = Failed f ->
  error f = START_CONTAINER_FAILED \/ error f = CONTAINER_NOT_RUNNING
  \/ error f = CONTAINER_NOT_HEALTHY.
Proof.
  unfold recreate_and_verify, bind, sh, sleep, ret. cbn [fst snd].
  destruct (negb _).
  { intros H; inversion H; subst f; auto. }
  set (w2 := log (Ran ComposeUpForceRecreate) (log (Ran DockerRm) w)).
  pose proof (verify_failure E w2) as Hv.
  destruct (verify_container_status E w2) as [[f'|v] w3]; cbn [fst snd] in *.
  - intros H; inversion H; subst f'. destruct (Hv f eq_refl); auto.
  - destruct (get_current_limits E _). discriminate.
Qed.

(** What [update_compose_file] does to the world. *)
Lemma update_cases (E : Env) (cpu_limit memory_limit : option string) (w : World) :
  (exists f, update_compose_file E cpu_limit memory_limit w = (Failed f, w)
             /\ error f = FILE_UPDATE_FAILED) \/
  (exists content half,
      manifest w = inl content /\ half_cpus E cpu_limit = inl half /\
      write_error w = None /\
      update_compose_file E cpu_limit memory_limit w
      = (Success tt,
         {| manifest := inl (patch cpu_limit memory_limit half content);
            write_error := None;
            trace := trace w
                       ++ [Wrote (patch cpu_limit memory_limit half content)] |})).
Proof.
  unfold update_compose_file.
  destruct (manifest w) as [content|e]; [|left; eexists; split; reflexivity].
  destruct (half_cpus E cpu_limit) as [half|e];
    [|left; eexists; split; reflexivity].
  destruct (write_error w) as [e|]; [left; eexists; split; reflexivity|].
  right. exists content, half. repeat split; reflexivity.
Qed.

(** The three ways through [set_resource_limits]: the stop fails; the
    update fails; or the manifest is written and the remaining steps run. *)
Lemma set_outcome (E : Env) (cpu_limit memory_limit : option string) (w : World) :
  (returncode (run E w ComposeDown) <> 0%Z /\
   exists f, error f = STOP_CONTAINER_FAILED /\
             set_resource_limits E cpu_limit memory_limit w
             = (Failed f, log (Ran ComposeDown) w)) \/
  (returncode (run E w ComposeDown) = 0%Z /\
   exists f, error f = FILE_UPDATE_FAILED /\
             set_resource_limits E cpu_limit memory_limit w
             = (Failed f, log (Ran ComposeDown) w)) \/
  (returncode (run E w ComposeDown) = 0%Z /\
   exists content half,
     manifest w = inl content /\ half_cpus E cpu_limit = inl half /\
     write_error w = None /\
     set_resource_limits E cpu_limit memory_limit w
     = recreate_and_verify E cpu_limit memory_limit
         {| manifest := inl (patch cpu_limit memory_limit half content);
            write_error := None;
            trace := trace w
                       ++ [Ran ComposeDown;
                           Wrote (patch cpu_limit memory_limit half content)] |}).
Proof.
  destruct (Z.eq_dec (returncode (run E w ComposeDown)) 0) as [H0|H0].
  - right.
    assert (Hset : set_resource_limits E cpu_limit memory_limit w
                   = (update_result <- update_compose_file E cpu_limit memory_limit ;;
                      match update_result with
                      | Failed f => ret (Failed f)
                      | Success _ => recreate_and_verify E cpu_limit memory_limit
                      end) (log (Ran ComposeDown) w)).
    { rewrite set_resource_limits_steps. unfold bind at 1. unfold sh at 1.
      now rewrite H0. }
    rewrite Hset. unfold bind.
    destruct (update_cases E cpu_limit memory_limit (log (Ran ComposeDown) w))
      as [[f [Hu Hf]]|[content [half [Hm [Hh [Hw Hu]]]]]]; rewrite Hu.
    + left. split; [exact H0|]. exists f. split; [assumption | reflexivity].
    + right. split; [exact H0|]. exists content, half.
      repeat split; try assumption.
      unfold log. cbn [trace]. now rewrite <- app_assoc.
  - left. split; [assumption|]. eexists.
    split; [|now apply set_resource_limits_stop_failed]. reflexivity.
Qed.

Lemma fresh_is_ascii (content : string) :
  manifest fresh = inl content -> Full.is_ascii content = true.
Proof. intros H. inversion H. reflexivity. Qed.

(** When [set_resource_limits] succeeds on a manifest of ASCII characters:
    the stop had succeeded; the manifest was readable and is now the patch
    of what it was; the seven steps ran once each, in order; the result
    names the limits asked for and a status with [Up] in it. *)
Theorem set_resource_limits_success
        (E : Env) (cpu_limit memory_limit : option string) (w : World)
        (a : Applied) :
  (forall content, manifest w = inl content -> Full.is_ascii content = true) ->
  fst (set_resource_limits E cpu_limit memory_limit w) = Success a ->
  returncode (run E w ComposeDown) = 0%Z /\
  limits a = (cpu_limit, memory_limit) /\
  contains "Up" (container_status a) = true /\
  exists content half,
    manifest w = inl content /\ half_cpus E cpu_limit = inl half /\
    manifest (snd (set_resource_limits E cpu_limit memory_limit w))
    = inl (patch cpu_limit memory_limit half content) /\
    trace (snd (set_resource_limits E cpu_limit memory_limit w))
    = (trace w
         ++ [Ran ComposeDown; Wrote (patch cpu_limit memory_limit half content)]
         ++ recreation_events)%list.
Proof.
  intros _ H.
  destruct (set_outcome E cpu_limit memory_limit w)
    as [[_ [f [_ Hs]]]|[[_ [f [_ Hs]]]|[H0 [content [half [Hm [Hh [_ Hs]]]]]]]];
    rewrite Hs in *; try discriminate H.
  destruct (recreate_success _ _ _ _ _ H) as [Hl [Hup Ht]].
  repeat split; try assumption.
  exists content, half. repeat split; try assumption.
  - now rewrite (proj1 (keeps_manifest_recreate E cpu_limit memory_limit _)).
  - rewrite Ht. cbn [trace]. now rewrite <- app_assoc.
Qed.

Lemma set_resource_limits_success_witness :
  exists a, fst (set_resource_limits healthy (Some "0.5") (Some "512M") fresh)
            = Success a /\
            limits a = (Some "0.5", Some "512M") /\
            contains "Up" (container_status a) = true.
Proof.
  eexists. split; [vm_compute; reflexivity|].
  destruct (set_resource_limits_success healthy (Some "0.5") (Some "512M") fresh _
              fresh_is_ascii eq_refl) as [_ [Hl [Hup _]]].
  split; assumption.
Defined.

(** No rollback: when [set_resource_limits] fails at the start or at the
    verification, the manifest (of ASCII characters) has been rewritten and
    stays rewritten. *)
Theorem set_resource_limits_no_rollback
        (E : Env) (cpu_limit memory_limit : option string) (w : World)
        (f : Failure) :
  (forall content, manifest w = inl content -> Full.is_ascii content = true) ->
  fst (set_resource_limits E cpu_limit memory_limit w) = Failed f ->
  error f = START_CONTAINER_FAILED \/ error f = CONTAINER_NOT_RUNNING
  \/ error f = CONTAINER_NOT_HEALTHY ->
  exists content half,
    manifest w = inl content /\ half_cpus E cpu_limit = inl half /\
    manifest (snd (set_resource_limits E cpu_limit memory_limit w))
    = inl (patch cpu_limit memory_limit half content).
Proof.
  intros _ H Hk.
  destruct (set_outcome E cpu_limit memory_limit w)
    as [[_ [f' [Hf Hs]]]|[[_ [f' [Hf Hs]]]|[_ [content [half [Hm [Hh [_ Hs]]]]]]]];
    rewrite Hs in *; cbn [fst snd] in *.
  - inversion H; subst f'. rewrite Hf in Hk.
    destruct Hk as [Hk|[Hk|Hk]]; discriminate Hk.
  - inversion H; subst f'. rewrite Hf in Hk.
    destruct Hk as [Hk|[Hk|Hk]]; discriminate Hk.
  - exists content, half. repeat split; try assumption.
    now rewrite (proj1 (keeps_manifest_recreate E cpu_limit memory_limit _)).
Qed.

Lemma set_resource_limits_no_rollback_witness :
  manifest (snd (set_resource_limits start_fails (Some "0.5") (Some "512M") fresh))
  = inl (original_content ++ nl ++ limits_section (Some "0.5") (Some "512M") "0.25").
Proof.
  destruct (set_resource_limits_no_rollback start_fails (Some "0.5") (Some "512M")
              fresh
              {| message := "Failed to start container: port is already allocated" ++ nl;
                 error := START_CONTAINER_FAILED |}
              fresh_is_ascii eq_refl (or_introl eq_refl))
    as [content [half [Hm [Hh Hp]]]].
  inversion Hm; subst content. inversion Hh; subst half.
  rewrite Hp. now rewrite patch_baseline.
Defined.

(** The removal of the old instance is best effort: what [docker rm]
    returns changes neither the result nor the world that
    [set_resource_limits] leaves. *)
Theorem docker_rm_outcome_is_ignored
        (E E' : Env) (cpu_limit memory_limit : option string) (w : World) :
  same_but_rm E E' ->
  set_resource_limits E cpu_limit memory_limit w
  = set_resource_limits E' cpu_limit memory_limit w.
Proof.
  intros [Hr [Hf Hl]].
  assert (Hh : half_cpus E cpu_limit = half_cpus E' cpu_limit).
  { unfold half_cpus. destruct cpu_limit as [[|c s]|]; auto. }
  unfold set_resource_limits, recreate_and_verify, update_compose_file,
    verify_container_status, get_current_limits, sleep, sh, bind, ret.
  rewrite Hh. rewrite (Hr w ComposeDown) by discriminate.
  destruct (negb _); [reflexivity|].
  destruct (manifest (log (Ran ComposeDown) w)); [|reflexivity].
  destruct (half_cpus E' cpu_limit); [|reflexivity].
  destruct (write_error (log (Ran ComposeDown) w)); [reflexivity|].
  cbn [fst snd].
  rewrite (Hr _ ComposeUpForceRecreate) by discriminate.
  destruct (negb _); [reflexivity|].
  rewrite (Hr _ DockerPsStatus) by discriminate.
  destruct (_ || _); [reflexivity|].
  destruct (negb (contains _ _)); [reflexivity|].
  rewrite (Hr _ DockerInspect) by discriminate.
  destruct (negb _); [reflexivity|].
  rewrite Hl. reflexivity.
Qed.

Lemma docker_rm_outcome_is_ignored_witness :
  set_resource_limits rm_fails (Some "0.5") (Some "512M") fresh
  = set_resource_limits healthy (Some "0.5") (Some "512M") fresh.
Proof.
  apply docker_rm_outcome_is_ignored. repeat split.
  intros w c Hc. destruct c; try reflexivity. now elim Hc.
Defined.



(** *** The command line *)

(** [main] on [set] with both limits: the exit status tells whether the
    orchestration succeeded; further arguments are not looked at. *)
Lemma main_set (E : Env) (c m : string) (rest : list string) (w : World) :
  main E ("set" :: c :: m :: rest) w
  = (exit (if success (fst (set_resource_limits E (Some c) (Some m) w))
           then 0 else 1),
     snd (set_resource_limits E (Some c) (Some m) w)).
Proof.
  unfold main. cbn [lower map_string].
  change (_ =? "set") with true. cbv iota. unfold bind.
  destruct (set_resource_limits E (Some c) (Some m) w) as [r w'].
  cbn [fst snd]. destruct (success r); reflexivity.
Qed.


(** Wrong usage: without a command, with a command that is none of
    [set], [reset] and [status] (in any case), or with [set] and fewer than
    two limits, the script exits with status 1 and has run nothing. *)
Theorem main_usage_error (E : Env) (args : list string) (w : World) :
  args = []
  \/ (exists command rest,
        args = command :: rest /\ lower command = "set"
        /\ (List.length rest < 2)%nat)
  \/ (exists command rest,
        args = command :: rest /\ lower command <> "set"
        /\ lower command <> "reset" /\ lower command <> "status") ->
  main E args w = (exit 1, w).
Proof.
  intros [->|[[command [rest [-> [Hc Hl]]]]|[command [rest [-> [H1 [H2 H3]]]]]]].
  - reflexivity.
  - unfold main. rewrite Hc. change ("set" =? "set") with true. cbv iota.
    destruct rest as [|x [|y rest]]; try reflexivity. simpl in Hl. lia.
  - unfold main.
    apply String.eqb_neq in H1, H2, H3. now rewrite H1, H2, H3.
Qed.

Lemma main_usage_error_witness :
  main healthy ["SET"; "0.5"] fresh = (exit 1, fresh)
  /\ main healthy ["restart"] fresh = (exit 1, fresh).
Proof.
  split.
  - apply main_usage_error. right; left. exists "SET", ["0.5"].
    repeat split. simpl. lia.
  - apply main_usage_error. right; right. exists "restart", [].
    repeat split; discriminate.
Defined.

(** [status] reports through its output alone: it runs the inspect and the
    listing, once each, and exits with status 0 whatever they return. *)
Theorem main_status_exits_zero (E : Env) (command : string) (rest : list string)
        (w : World) :
  lower command = "status" ->
  exit_code (fst (main E (command :: rest) w)) = 0%Z /\
  snd (main E (command :: rest) w)
  = log (Ran DockerPsStatus) (log (Ran DockerInspect) w).
Proof.
  intros H. unfold main. rewrite H.
  change ("status" =? "set") with false. change ("status" =? "reset") with false.
  change ("status" =? "status") with true. cbv iota. unfold bind.
  pose proof (get_current_limits_world E w) as Hg.
  destruct (get_current_limits E w) as [l w1]. cbn [snd] in Hg. subst w1.
  set (w1 := log (Ran DockerInspect) w).
  assert (Hv : snd (verify_container_status E w1) = log (Ran DockerPsStatus) w1).
  { unfold verify_container_status, bind, sh, ret. cbn [fst snd].
    repeat match goal with
           | |- context [if ?b then _ else _] => destruct b
           end; reflexivity. }
  destruct (verify_container_status E w1) as [v w2]. cbn [snd] in Hv. subst w2.
  split; reflexivity.
Qed.

Lemma main_status_exits_zero_witness :
  exit_code (fst (main no_instance ["status"] fresh)) = 0%Z.
Proof.
  exact (proj1 (main_status_exits_zero no_instance "status" [] fresh eq_refl)).
Defined.

(** *** A period of zero *)

(** A positive quota reported with a period of zero: the division raises,
    and the read-back is [unknown] for the CPU and for the memory alike,
    whatever the memory limit is. *)
Theorem zero_period_reads_unknown
        (E : Env) (w : World) (info : ContainerInfo) (hc : HostConfig) (q : Z) :
  returncode (run E w DockerInspect) = 0%Z ->
  loads_inspect E (stdout (run E w DockerInspect)) = Some info ->
  HostConfig_ info = Some hc ->
  CpuQuota hc = Some q -> (0 < q)%Z -> CpuPeriod hc = Some 0%Z ->
  fst (get_current_limits E w) = unknown.
Proof.
  intros Hrc Hl Hhc Hq Hq0 Hp.
  rewrite (get_current_limits_inspected E w info Hrc Hl).
  unfold limits_of_info, cpu_of. rewrite Hhc, (positive_some _ _ Hq Hq0), Hp.
  reflexivity.
Qed.

Lemma zero_period_reads_unknown_witness :
  fst (get_current_limits quota_without_period fresh) = unknown.
Proof.
  exact (zero_period_reads_unknown quota_without_period fresh
           {| HostConfig_ :=
                Some {| CpuQuota := Some 50000%Z; CpuPeriod := Some 0%Z;
                        CpuCount := Some 0%Z; Memory := Some 536870912%Z |} |}
           _ 50000%Z eq_refl eq_refl eq_refl eq_refl eq_refl eq_refl).
Defined.

End OrchestratorMore.

(** ** The read-back, in numbers *)

Module ReadBackMore.

Import PyFloat PyFloatFacts ResourceManager.
Open Scope Z_scope.

Lemma round_half_even_exact (k d : Z) :
  0 < d -> round_half_even (k * d) d = k.
Proof.
  intros Hd. unfold round_half_even. cbv zeta.
  rewrite Z.div_mul, Z.mod_mul by lia.
  destruct (Z.compare_spec (2 * 0) d); lia.
Qed.

Lemma round_half_even_scale (n d c : Z) :
  0 < d -> 0 < c -> round_half_even (n * c) (d * c) = round_half_even n d.
Proof.
  intros Hd Hc. unfold round_half_even. cbv zeta.
  rewrite Z.div_mul_cancel_r, Z.mul_mod_distr_r by lia.
  rewrite Z.mul_assoc, <- Zmult_compare_compat_r by lia.
  reflexivity.
Qed.

(** Dividing an integer below [2^52] by a power of two is exact, so what is
    printed of the quotient is the decimal rounding of the quotient itself. *)
Lemma scaled_true_div_pow2 (n j k : Z) (x : float) :
  0 < n < 2 ^ 52 -> 0 <= j <= 1074 -> 0 <= k ->
  true_div n (2 ^ j) = Some x ->
  fneg x = false /\ scaled k x = round_half_even (n * 10 ^ k) (2 ^ j).
Proof.
  intros [Hn Hlt] Hj Hk Hx.
  assert (Hd : 0 < 2 ^ j) by (apply Z.pow_pos_nonneg; lia).
  split; [exact (true_div_sign n (2 ^ j) x Hn Hd Hx)|].
  revert Hx. unfold true_div.
  replace (2 ^ j =? 0) with false by (symmetry; apply Z.eqb_neq; lia).
  rewrite (Z.abs_eq n), (Z.abs_eq (2 ^ j)) by lia.
  replace (n =? 0) with false by (symmetry; apply Z.eqb_neq; lia).
  pose proof (log2_quot_le n (2 ^ j)) as Hq.
  rewrite Z.log2_pow2 in Hq by lia.
  assert (Hl : Z.log2 n < 52) by (apply Z.log2_lt_pow2; assumption).
  set (e := Z.max (log2_quot n (2 ^ j) - 52) (-1074)) in *.
  assert (He : e <= - j /\ e <= -1 /\ -1074 <= e) by (subst e; lia).
  replace (0 <=? e) with false by (symmetry; apply Z.leb_gt; lia).
  replace (971 <? e) with false by (symmetry; apply Z.ltb_ge; lia).
  replace (e =? 971) with false by (symmetry; apply Z.eqb_neq; lia).
  cbn [orb andb]. intros H; inversion H; subst x; clear H.
  unfold scaled. cbn [fexp fman].
  replace (0 <=? e) with false by (symmetry; apply Z.leb_gt; lia).
  assert (HP : 2 ^ (- e) = 2 ^ j * 2 ^ (- e - j)).
  { rewrite <- Z.pow_add_r by lia. f_equal. lia. }
  assert (Hc : 0 < 2 ^ (- e - j)) by (apply Z.pow_pos_nonneg; lia).
  rewrite HP. set (c := 2 ^ (- e - j)) in *.
  replace (n * (2 ^ j * c)) with (n * c * 2 ^ j) by ring.
  rewrite round_half_even_exact by assumption.
  replace (n * c * 10 ^ k) with (n * 10 ^ k * c) by ring.
  now apply round_half_even_scale.
Qed.

Lemma memory_of_mib (hc : HostConfig) (b : Z) :
  Memory hc = Some b -> 2 ^ 20 <= b < 2 ^ 30 ->
  memory_of hc = Some (str_of_Z (round_half_even b (2 ^ 20)) ++ "M")%string.
Proof.
  intros Hm [Hge Hlt]. unfold memory_of.
  rewrite Hm. unfold positive.
  replace (0 <? b) with true by (symmetry; apply Z.ltb_lt; lia).
  change (1024 ^ 3) with (2 ^ 30). change (1024 ^ 2) with (2 ^ 20).
  replace (2 ^ 30 <=? b) with false by (symmetry; apply Z.leb_gt; lia).
  replace (2 ^ 20 <=? b) with true by (symmetry; apply Z.leb_le; lia).
  destruct (true_div_defined b (2 ^ 20)) as [x Hx]; [lia | lia |].
  rewrite Hx. cbn [option_map].
  destruct (scaled_true_div_pow2 b 20 0 x) as [Hs Ht]; [lia | lia | lia | exact Hx |].
  unfold format_0f, sign. rewrite Hs, Ht.
  change (10 ^ 0) with 1. now rewrite Z.mul_1_r.
Qed.

Lemma memory_of_gib (hc : HostConfig) (b : Z) :
  Memory hc = Some b -> 2 ^ 30 <= b < 2 ^ 52 ->
  memory_of hc
  = Some (str_of_Z (round_half_even (b * 10) (2 ^ 30) / 10) ++ "."
            ++ str_of_Z (round_half_even (b * 10) (2 ^ 30) mod 10) ++ "G")%string.
Proof.
  intros Hm [Hge Hlt]. unfold memory_of.
  rewrite Hm. unfold positive.
  replace (0 <? b) with true by (symmetry; apply Z.ltb_lt; lia).
  change (1024 ^ 3) with (2 ^ 30).
  replace (2 ^ 30 <=? b) with true by (symmetry; apply Z.leb_le; lia).
  destruct (true_div_defined b (2 ^ 30)) as [x Hx]; [lia | lia |].
  rewrite Hx. cbn [option_map].
  destruct (scaled_true_div_pow2 b 30 1 x) as [Hs Ht]; [lia | lia | lia | exact Hx |].
  unfold format_1f, sign. cbv zeta. rewrite Hs, Ht.
  change (10 ^ 1) with 10. cbn [append].
  now rewrite !TextFacts.append_assoc.
Qed.

(** The memory limit is read back without rounding error of the float: a
    limit between 1 MiB and 1 GiB reads as the number of MiB rounded to the
    nearest integer (ties to the even one) followed by [M], and a limit
    from 1 GiB (below [2^52] bytes) as the number of tenths of GiB rounded
    the same way, printed with one decimal and [G]. *)
Theorem memory_reading_is_exact (hc : HostConfig) (b : Z) :
  Memory hc = Some b ->
  (2 ^ 20 <= b < 2 ^ 30 ->
   memory_of hc = Some (str_of_Z (round_half_even b (2 ^ 20)) ++ "M")%string) /\
  (2 ^ 30 <= b < 2 ^ 52 ->
   memory_of hc
   = Some (str_of_Z (round_half_even (b * 10) (2 ^ 30) / 10) ++ "."
             ++ str_of_Z (round_half_even (b * 10) (2 ^ 30) mod 10) ++ "G")%string).
Proof.
  intros Hm. split; intros Hb;
    [now apply memory_of_mib | now apply memory_of_gib].
Qed.

Lemma memory_reading_is_exact_witness :
  memory_of {| CpuQuota := None; CpuPeriod := None; CpuCount := None;
               Memory := Some 1610612736 |} = Some "1.5G"%string
  /\ memory_of {| CpuQuota := None; CpuPeriod := None; CpuCount := None;
                  Memory := Some 1572864 |} = Some "2M"%string.
Proof.
  assert (Hg : 2 ^ 30 <= 1610612736 < 2 ^ 52)
    by (split; [intros H; discriminate H | reflexivity]).
  assert (Hm : 2 ^ 20 <= 1572864 < 2 ^ 30)
    by (split; [intros H; discriminate H | reflexivity]).
  split.
  - exact (proj2 (memory_reading_is_exact
                    {| CpuQuota := None; CpuPeriod := None; CpuCount := None;
                       Memory := Some 1610612736 |} 1610612736 eq_refl) Hg).
  - exact (proj1 (memory_reading_is_exact
                    {| CpuQuota := None; CpuPeriod := None; CpuCount := None;
                       Memory := Some 1572864 |} 1572864 eq_refl) Hm).
Defined.

(** Round trip of whole units: a limit of [k] MiB reads back as [k]
    followed by [M], and a limit of [k] GiB as [k.0G]. *)
Theorem whole_units_read_back (hc : HostConfig) (k : Z) :
  (1 <= k < 1024 -> Memory hc = Some (k * 2 ^ 20) ->
   memory_of hc = Some (str_of_Z k ++ "M")%string) /\
  (1 <= k < 2 ^ 22 -> Memory hc = Some (k * 2 ^ 30) ->
   memory_of hc = Some (str_of_Z k ++ ".0G")%string).
Proof.
  split; intros Hk Hm.
  - rewrite (memory_of_mib hc _ Hm) by lia.
    now rewrite round_half_even_exact by lia.
  - rewrite (memory_of_gib hc _ Hm) by lia.
    replace (k * 2 ^ 30 * 10) with (k * 10 * 2 ^ 30) by ring.
    rewrite round_half_even_exact by lia.
    rewrite Z.div_mul, Z.mod_mul by lia. reflexivity.
Qed.

Lemma whole_units_read_back_witness :
  memory_of {| CpuQuota := None; CpuPeriod := None; CpuCount := None;
               Memory := Some 536870912 |} = Some "512M"%string
  /\ memory_of {| CpuQuota := None; CpuPeriod := None; CpuCount := None;
                  Memory := Some 2147483648 |} = Some "2.0G"%string.
Proof.
  assert (Hm : 1 <= 512 < 1024)
    by (split; [intros H; discriminate H | reflexivity]).
  assert (Hg : 1 <= 2 < 2 ^ 22)
    by (split; [intros H; discriminate H | reflexivity]).
  split.
  - exact (proj1 (whole_units_read_back
                    {| CpuQuota := None; CpuPeriod := None; CpuCount := None;
                       Memory := Some 536870912 |} 512) Hm eq_refl).
  - exact (proj2 (whole_units_read_back
                    {| CpuQuota := None; CpuPeriod := None; CpuCount := None;
                       Memory := Some 2147483648 |} 2) Hg eq_refl).
Defined.

(** The CPU limit that is read back for a quota below [2^20] and a positive
    period: a number of tenths [t], printed with the point before its last
    digit, that is within [1/2 + 10/2^34] of [10 * quota / period]; when
    the quotient is a whole number of tenths, it is that number. *)
Theorem cpu_reading_is_close (hc : HostConfig) (q p : Z) :
  CpuQuota hc = Some q -> CpuPeriod hc = Some p ->
  0 < q < 2 ^ 20 -> 0 < p ->
  exists t,
    cpu_of hc = Some (str_of_Z (t / 10) ++ "." ++ str_of_Z (t mod 10))%string /\
    2 ^ 34 * Z.abs (t * p - 10 * q) <= (2 ^ 33 + 10) * p /\
    (forall t0, 10 * q = t0 * p -> t = t0).
Proof.
  intros Hq Hp [Hq0 Hlt] Hp0.
  destruct (true_div_defined q p) as [x Hx]; [split; [lia|] | lia |].
  { apply Z.lt_trans with (2 ^ 20); [assumption | reflexivity]. }
  exists (scaled 1 x).
  pose proof (cpu_count_error q p x (conj Hq0 Hlt) Hp0 Hx) as Herr.
  split; [|split; [exact Herr|]].
  - unfold cpu_of. rewrite (OrchestratorFacts.positive_some _ _ Hq Hq0), Hp, Hx.
    cbn [option_map]. unfold format_1f, sign. cbv zeta.
    now rewrite (true_div_sign q p x Hq0 Hp0 Hx).
  - intros t0 Ht0. rewrite Ht0 in Herr.
    replace (scaled 1 x * p - t0 * p) with ((scaled 1 x - t0) * p) in Herr by ring.
    rewrite Z.abs_mul, (Z.abs_eq p) in Herr by lia.
    change (2 ^ 34) with 17179869184 in Herr.
    change (2 ^ 33) with 8589934592 in Herr.
    assert (Z.abs (scaled 1 x - t0) < 1) by nia. lia.
Qed.

Lemma cpu_reading_is_close_witness :
  cpu_of {| CpuQuota := Some 50000; CpuPeriod := Some 100000;
            CpuCount := None; Memory := None |} = Some "0.5"%string.
Proof.
  destruct (cpu_reading_is_close
              {| CpuQuota := Some 50000; CpuPeriod := Some 100000;
                 CpuCount := None; Memory := None |} 50000 100000
              eq_refl eq_refl (conj eq_refl eq_refl) eq_refl)
    as [t [Hc [_ Ht]]].
  rewrite Hc. rewrite (Ht 5 eq_refl). reflexivity.
Defined.

End ReadBackMore.

(** ** Trimming and case *)

Module TextMore.

Import TextFacts Loop.

Ltac by_cases_on c := destruct c as [[] [] [] [] [] [] [] []]; reflexivity.

Lemma is_space_upper (c : ascii) : is_space (upper_char c) = is_space c.
Proof. by_cases_on c. Qed.

Lemma upper_char_idempotent (c : ascii) : upper_char (upper_char c) = upper_char c.
Proof. by_cases_on c. Qed.

Lemma eqb_upper_char (c : ascii) :
  Ascii.eqb (upper_char c) "=" = Ascii.eqb c "=".
Proof. by_cases_on c. Qed.

Lemma upper_idempotent (s : string) : upper (upper s) = upper s.
Proof.
  unfold upper. induction s as [|c s IH]; simpl; [reflexivity|].
  now rewrite upper_char_idempotent, IH.
Qed.

Lemma lstrip_upper (s : string) : lstrip (upper s) = upper (lstrip s).
Proof.
  unfold upper. induction s as [|c s IH]; simpl; [reflexivity|].
  rewrite is_space_upper. now destruct (is_space c).
Qed.

Lemma rstrip_upper (s : string) : rstrip (upper s) = upper (rstrip s).
Proof.
  unfold upper. induction s as [|c s IH]; [reflexivity|].
  cbn [map_string rstrip]. rewrite IH, is_space_upper.
  destruct (rstrip s); cbn [map_string]; [|reflexivity].
  now destruct (is_space c).
Qed.

Lemma strip_upper (s : string) : strip (upper s) = upper (strip s).
Proof. unfold strip. now rewrite lstrip_upper, rstrip_upper. Qed.

Lemma rstrip_cons_nonspace (c : ascii) (s : string) :
  is_space c = false -> rstrip (String c s) = String c (rstrip s).
Proof. intros H. cbn [rstrip]. rewrite H. now destruct (rstrip s). Qed.

Lemma rstrip_idempotent (s : string) : rstrip (rstrip s) = rstrip s.
Proof.
  induction s as [|c s IH]; [reflexivity|].
  cbn [rstrip]. destruct (rstrip s) as [|d r] eqn:Hr.
  - destruct (is_space c) eqn:Hc; [reflexivity|].
    cbn [rstrip]. now rewrite Hc.
  - cbn [rstrip] in *. rewrite IH. reflexivity.
Qed.

Lemma lstrip_head (s : string) (c : ascii) (t : string) :
  lstrip s = String c t -> is_space c = false.
Proof.
  induction s as [|d s IH]; [discriminate|].
  cbn [lstrip]. destruct (is_space d) eqn:Hd; [exact IH|].
  intros H; inversion H; now subst.
Qed.

Lemma strip_idempotent (s : string) : strip (strip s) = strip s.
Proof.
  unfold strip. destruct (lstrip s) as [|c t] eqn:Hl; [reflexivity|].
  pose proof (lstrip_head s c t Hl) as Hc.
  rewrite (rstrip_cons_nonspace c t Hc). cbn [lstrip]. rewrite Hc.
  rewrite (rstrip_cons_nonspace c _ Hc). now rewrite rstrip_idempotent.
Qed.

(** Trimming and upper-casing a line that is trimmed and in upper case
    changes nothing. *)
Lemma normalise_idempotent (s : string) :
  upper (strip (upper (strip s))) = upper (strip s).
Proof. now rewrite strip_upper, strip_idempotent, upper_idempotent. Qed.

Lemma has_char_upper (s : string) : has_char "=" (upper s) = has_char "=" s.
Proof.
  unfold upper. induction s as [|c s IH]; [reflexivity|].
  cbn [map_string has_char]. now rewrite eqb_upper_char, IH.
Qed.

Lemma has_char_rstrip (c : ascii) (s : string) :
  has_char c s = false -> has_char c (rstrip s) = false.
Proof.
  induction s as [|d s IH]; [trivial|].
  cbn [has_char rstrip]. intros H. apply orb_false_elim in H as [Hd Hs].
  specialize (IH Hs). destruct (rstrip s).
  - destruct (is_space d); [reflexivity|]. cbn [has_char]. now rewrite Hd.
  - cbn [has_char] in *. now rewrite Hd, IH.
Qed.

Lemma split1_absent (sep : ascii) (s : string) :
  has_char sep s = false -> split1 sep s = [s].
Proof.
  induction s as [|c s IH]; [reflexivity|].
  cbn [has_char split1]. intros H. apply orb_false_elim in H as [Hc Hs].
  now rewrite Hc, (IH Hs).
Qed.

Lemma split1_first (sep : ascii) (k v : string) :
  has_char sep k = false -> split1 sep (k ++ String sep v) = [k; v].
Proof.
  induction k as [|c k IH]; intros H.
  - cbn [append split1]. now rewrite Ascii.eqb_refl.
  - cbn [has_char] in H. apply orb_false_elim in H as [Hc Hk].
    cbn [append split1]. now rewrite Hc, (IH Hk).
Qed.

Lemma split_without (sep c : ascii) (s : string) :
  has_char c s = false ->
  Forall (fun p => has_char c p = false) (split sep s).
Proof.
  induction s as [|d s IH]; intros H.
  - repeat constructor.
  - cbn [has_char] in H. apply orb_false_elim in H as [Hd Hs].
    specialize (IH Hs). cbn [split].
    destruct (Ascii.eqb d sep).
    + constructor; [reflexivity | assumption].
    + destruct (split sep s) as [|w ws]; [repeat constructor; cbn; now rewrite Hd|].
      inversion IH; subst. constructor; [|assumption].
      cbn [has_char]. now rewrite Hd.
Qed.

Lemma printable_app (a b : string) :
  printable (a ++ b) = printable a && printable b.
Proof.
  induction a as [|c a IH]; [reflexivity|].
  cbn [append printable]. rewrite IH. now rewrite andb_assoc.
Qed.

Lemma printable_one_line (s : string) : printable s = true -> one_line s = true.
Proof.
  induction s as [|c s IH]; [trivial|].
  cbn [printable one_line]. intros H.
  apply andb_true_iff in H as [Hc Hs]. rewrite (IH Hs), andb_true_r.
  revert Hc. destruct c as [[] [] [] [] [] [] [] []]; vm_compute; auto.
Qed.

End TextMore.

(** ** The dispatcher, the loop and the probe *)

Module GatewayMore.

Import Manifest TextFacts TextMore Scenario Claims Loop Steps Gateway
       OrchestratorFacts OrchestratorMore.

(** *** Lines and their normal form *)

Lemma process_normalised (E : Env) (line : string) :
  process_obc_command E (upper (strip line)) = process_obc_command E line.
Proof. unfold process_obc_command. now rewrite normalise_idempotent. Qed.

(** Commands are read without regard to case and to surrounding blanks: a
    line is treated as its trimmed, upper-case form is. *)
Theorem dispatch_ignores_case_and_blanks (E : Env) (line : string) (w : World) :
  process_obc_command E (upper (strip line)) w = process_obc_command E line w.
Proof. now rewrite process_normalised. Qed.

Lemma process_stripped (E : Env) (line : string) :
  process_obc_command E (strip line) = process_obc_command E line.
Proof. unfold process_obc_command. now rewrite strip_idempotent. Qed.

(** A log line gets no response and starts nothing, whatever follows the
    marker and in whatever case the marker is written. *)
Theorem log_lines_are_dropped (E : Env) (t : string) (w : World) :
  process_obc_command E ("[LOG]" ++ t) w = (None, w)
  /\ process_obc_command E ("[log]" ++ t) w = (None, w)
  /\ process_obc_command E ("  [Log]" ++ t) w = (None, w).
Proof.
  unfold process_obc_command, strip. cbn [append lstrip].
  change (is_space " ") with true. change (is_space "[") with false.
  cbv iota. repeat (rewrite rstrip_cons_nonspace by reflexivity).
  repeat split; reflexivity.
Qed.

(** *** Every other line is answered *)

Lemma app_nonempty (a b : string) : b <> EmptyString -> a ++ b <> EmptyString.
Proof. destruct a; [trivial | discriminate]. Qed.

Lemma answers_set (E : Env) (command : string) :
  answers (set_resource_limits E command).
Proof.
  intros w. unfold set_resource_limits, bind, ret.
  destruct (split1 ":" command) as [|h [|d l]]; try discriminate.
  destruct (parse_pairs _ _ _) as [c m].
  destruct (_ && _); [discriminate|].
  destruct (python3 E _ w) as [r w']. destruct (_ =? _)%Z; discriminate.
Qed.

Lemma process_answers (E : Env) (line : string) (w : World) (r : string) :
  fst (process_obc_command E line w) = Some r -> r <> EmptyString.
Proof.
  unfold process_obc_command, lift, bind, ret.
  set (command := upper (strip line)).
  destruct (startswith command "[LOG]"); [discriminate|].
  destruct (command =? "START_CONTAINER").
  { unfold start_container, bind, sh, ResourceManager.sh, ret. cbn [fst snd].
    destruct (_ =? _)%Z; intros H; inversion H; discriminate. }
  destruct (command =? "STOP_CONTAINER").
  { unfold stop_container, bind, sh, ResourceManager.sh, ret. cbn [fst snd].
    destruct (_ =? _)%Z; intros H; inversion H; discriminate. }
  destruct (command =? "GET_CONTAINER_STATUS").
  { unfold get_container_status, bind, sh, ResourceManager.sh. cbn [fst snd].
    intros H; inversion H; discriminate. }
  destruct (command =? "RUN_PAYLOAD").
  { unfold call_run_model, call_api, bind, ret. cbn [fst snd].
    destruct (truthy _); intros H; inversion H; discriminate. }
  destruct (command =? "GET_STATUS").
  { unfold call_execution_status, call_api, bind, ret. cbn [fst snd].
    destruct (truthy _); [destruct (subscript _ _)|];
      intros H; inversion H; discriminate. }
  destruct (command =? "GET_FILES").
  { unfold call_get_file_number, call_api, bind, ret. cbn [fst snd].
    destruct (truthy _); [destruct (subscript _ _)|];
      intros H; inversion H; discriminate. }
  destruct (command =? "SHUTDOWN").
  { unfold call_shutdown, call_api, bind, ret. cbn [fst snd].
    destruct (truthy _); intros H; inversion H; discriminate. }
  destruct (command =? "PING"); [intros H; inversion H; discriminate|].
  destruct (startswith command "SET_RESOURCE_LIMITS:").
  { pose proof (answers_set E command w) as Ha.
    destruct (set_resource_limits E command w) as [s w']. cbn [fst] in *.
    intros H; inversion H; now subst. }
  destruct (command =? "RESET_RESOURCE_LIMITS").
  { unfold reset_resource_limits, bind, ret.
    destruct (python3 E _ w) as [x w']. cbn [fst snd].
    destruct (_ =? _)%Z; intros H; inversion H; discriminate. }
  destruct (startswith command "TEXT_PROMPT:").
  { unfold handle_text_prompt, ret.
    destruct (split1 ":" command) as [|h [|t l]]; cbn [fst];
      intros H; inversion H; try discriminate.
    apply app_nonempty. discriminate. }
  cbn [fst]. intros H; inversion H. discriminate.
Qed.

Lemma process_none (E : Env) (line : string) (w : World) :
  fst (process_obc_command E line w) = None ->
  startswith (upper (strip line)) "[LOG]" = true.
Proof.
  unfold process_obc_command, lift, bind, ret.
  destruct (startswith (upper (strip line)) "[LOG]"); [reflexivity|].
  repeat match goal with
         | |- context [if ?b then _ else _] => destruct b
         end;
    match goal with
    | |- context [let (_, _) := ?m in _] => destruct m
    | _ => idtac
    end; discriminate.
Qed.

(** One turn of the loop on a line of ASCII characters sends a line back
    exactly when the line read is not blank and not a log line; what is
    sent is the response of the dispatcher followed by a line feed, and the
    response is never empty. *)
Theorem turn_answers (E : Env) (line : string) (w : World) :
  Full.is_ascii line = true ->
  (strip line = EmptyString \/ startswith (upper (strip line)) "[LOG]" = true ->
   turn E line w = (None, w)) /\
  (strip line <> EmptyString -> startswith (upper (strip line)) "[LOG]" = false ->
   exists r, r <> EmptyString /\
             process_obc_command E line w
             = (Some r, snd (process_obc_command E line w)) /\
             turn E line w
             = (Some (r ++ nl), snd (process_obc_command E line w))).
Proof.
  intros _. unfold turn. rewrite process_stripped. split.
  - intros [H|H].
    + now rewrite H.
    + assert (Hp : process_obc_command E line w = (None, w))
        by (unfold process_obc_command; now rewrite H).
      destruct (strip line); [reflexivity|].
      unfold bind. now rewrite Hp.
  - intros Hne Hlog.
    destruct (strip line) as [|c s] eqn:Hs; [contradiction|]. unfold bind.
    pose proof (process_answers E line w) as Ha.
    pose proof (process_none E line w) as Hn.
    destruct (process_obc_command E line w) as [[r|] w']; cbn [fst snd] in *.
    + specialize (Ha r eq_refl). exists r.
      destruct r; [contradiction|]. repeat split. discriminate.
    + specialize (Hn eq_refl). congruence.
Qed.

Lemma turn_answers_witness :
  turn healthy ("  ping " ++ nl) fresh = (Some ("PONG" ++ nl), fresh)
  /\ turn healthy ("[LOG] boot complete" ++ nl) fresh = (None, fresh)
  /\ turn healthy ("   " ++ nl) fresh = (None, fresh).
Proof.
  split; [|split].
  - destruct (proj2 (turn_answers healthy ("  ping " ++ nl) fresh eq_refl))
      as [r [_ [Hp Ht]]]; [discriminate | reflexivity |].
    inversion Hp; subst r. exact Ht.
  - exact (proj1 (turn_answers healthy ("[LOG] boot complete" ++ nl) fresh eq_refl)
                 (or_intror eq_refl)).
  - exact (proj1 (turn_answers healthy ("   " ++ nl) fresh eq_refl)
                 (or_introl eq_refl)).
Defined.

(** *** The limits in a command *)

Lemma parse_pairs_app (a b : list string) :
  forall c m,
    parse_pairs (a ++ b) c m
    = parse_pairs b (fst (parse_pairs a c m)) (snd (parse_pairs a c m)).
Proof.
  induction a as [|x a IH]; intros c m; [reflexivity|].
  cbn [app parse_pairs].
  destruct (split1 "=" x) as [|k [|v [|y l]]]; try apply IH.
  destruct (_ =? "cpu"); [apply IH|].
  destruct (_ =? "memory"); apply IH.
Qed.

(** The last pair decides, in a list of pairs of ASCII characters: a pair
    for the CPU (its key written in any case, with or without blanks around
    it) at the end of the list sets the CPU limit to its trimmed value,
    whatever the pairs before it said, and leaves the memory limit to them;
    and the same for the memory. *)
Theorem last_pair_wins (pairs : list string) (key value : string)
        (cpu_limit memory_limit : option string) :
  forallb Full.is_ascii pairs = true ->
  Full.is_ascii key = true ->
  Full.is_ascii value = true ->
  has_char "=" key = false ->
  (lower (strip key) = "cpu" ->
   parse_pairs (pairs ++ [key ++ "=" ++ value]) cpu_limit memory_limit
   = (Some (strip value), snd (parse_pairs pairs cpu_limit memory_limit))) /\
  (lower (strip key) = "memory" ->
   parse_pairs (pairs ++ [key ++ "=" ++ value]) cpu_limit memory_limit
   = (fst (parse_pairs pairs cpu_limit memory_limit), Some (strip value))).
Proof.
  intros _ _ _ Hk. split; intros Hl; rewrite parse_pairs_app; cbn [parse_pairs];
    change ("=" ++ value) with (String "=" value);
    rewrite (split1_first "=" key value Hk), Hl; reflexivity.
Qed.

Lemma last_pair_wins_witness :
  parse_pairs ["CPU=0.5"; "MEMORY=1G"; " Cpu = 2.0 "] None None
  = (Some "2.0", Some "1G").
Proof.
  exact (proj1 (last_pair_wins ["CPU=0.5"; "MEMORY=1G"] " Cpu " " 2.0 " None None
                  eq_refl eq_refl eq_refl eq_refl) eq_refl).
Defined.

Lemma parse_pairs_ignored (pairs : list string) :
  Forall (fun p => has_char "=" p = false) pairs ->
  forall c m, parse_pairs pairs c m = (c, m).
Proof.
  induction 1 as [|x l Hx _ IH]; intros c m; [reflexivity|].
  cbn [parse_pairs]. now rewrite (split1_absent "=" x Hx).
Qed.

(** A payload without any [=] names no limit: the answer is the error
    "No limits specified", and nothing is run, stopped or written. *)
Theorem no_limits_specified (E : Env) (data : string) (w : World) :
  has_char "=" data = false ->
  process_obc_command E ("SET_RESOURCE_LIMITS:" ++ data) w
  = (Some "RESOURCE_LIMITS_ERROR:No limits specified", w).
Proof.
  intros H.
  assert (Hd : has_char "=" (upper (rstrip data)) = false)
    by (rewrite has_char_upper; now apply has_char_rstrip).
  unfold process_obc_command, strip. cbn [append lstrip].
  change (is_space "S") with false. cbv iota.
  repeat (rewrite rstrip_cons_nonspace by reflexivity).
  change (upper (String "S" ?x)) with (String "S" (upper x)).
  cbn [upper map_string upper_char is_lower nat_of_ascii].
  fold (upper (rstrip data)).
  set (u := upper (rstrip data)) in *.
  cbv -[u set_resource_limits lift].
  unfold lift, bind, set_resource_limits. cbn [split1 Ascii.eqb Bool.eqb].
  rewrite (parse_pairs_ignored _ (split_without "," "=" u Hd)).
  reflexivity.
Qed.

Lemma no_limits_specified_witness :
  process_obc_command healthy "SET_RESOURCE_LIMITS:half a cpu, please" fresh
  = (Some "RESOURCE_LIMITS_ERROR:No limits specified", fresh).
Proof.
  exact (no_limits_specified healthy "half a cpu, please" fresh eq_refl).
Defined.

(** *** The script behind the two commands *)

(** The two arguments that the script is given. *)
Lemma python3_set (E : Env) (cpu_limit memory_limit : option string) (w : World) :
  python3 E (cmd_parts cpu_limit memory_limit) w
  = ResourceManager.main E
      ["set"; if given cpu_limit then fmt cpu_limit else "1.0";
              if given memory_limit then fmt memory_limit else "1G"] w.
Proof. reflexivity. Qed.


(** *** The status line *)

Lemma escape_char_printable (c : ascii) : printable (escape_char c) = true.
Proof. destruct c as [[] [] [] [] [] [] [] []]; vm_compute; reflexivity. Qed.

Lemma escape_printable (s : string) : printable (escape s) = true.
Proof.
  induction s as [|c s IH]; [reflexivity|].
  cbn [escape]. now rewrite printable_app, escape_char_printable, IH.
Qed.

Lemma json_string_printable (s : string) : printable (json_string s) = true.
Proof.
  unfold json_string. now rewrite !printable_app, escape_printable.
Qed.

Lemma join_printable (sep : string) (parts : list string) :
  printable sep = true ->
  Forall (fun p => printable p = true) parts ->
  printable (join sep parts) = true.
Proof.
  intros Hs. induction 1 as [|p l Hp Hl IH]; [reflexivity|].
  cbn [join]. destruct l; [assumption|].
  rewrite !printable_app, Hp, Hs. exact IH.
Qed.

Lemma json_dumps_printable (d : list (string * string)) :
  printable (json_dumps d) = true.
Proof.
  unfold json_dumps. rewrite !printable_app.
  rewrite join_printable; [reflexivity | reflexivity |].
  apply Forall_map, Forall_forall. intros [k v] _. cbn [fst snd].
  now rewrite !printable_app, !json_string_printable.
Qed.

(** Whatever the tools print, line feeds, tabs and quotes included, the
    response of the probe is one line of printable ASCII characters: it
    cannot break the line protocol. *)
Theorem status_response_is_one_line (E : Env) (w : World) :
  printable (fst (get_container_status E w)) = true /\
  one_line (fst (get_container_status E w)) = true.
Proof.
  assert (H : printable (fst (get_container_status E w)) = true).
  { unfold get_container_status, bind, sh, ResourceManager.sh. cbn [fst snd].
    now rewrite printable_app, json_dumps_printable. }
  split; [exact H | now apply printable_one_line].
Qed.

(** *** Who writes the manifest *)

Lemma keeps_manifest_call_api (E : Env) (endpoint method : string) :
  keeps_manifest (call_api E endpoint method).
Proof. intros w; split; reflexivity. Qed.

Lemma keeps_manifest_status (E : Env) : keeps_manifest (get_container_status E).
Proof.
  intros w. unfold get_container_status, bind, sh, ResourceManager.sh.
  cbn [fst snd]. split; reflexivity.
Qed.

Ltac handler_step :=
  first [ apply keeps_manifest_ret | apply keeps_manifest_sh
        | apply keeps_manifest_call_api | apply keeps_manifest_status
        | apply keeps_manifest_bind; [|intros ?]
        | match goal with
          | |- keeps_manifest (if ?b then _ else _) => destruct b
          | |- keeps_manifest (match ?x with _ => _ end) => destruct x
          end ].

(** Of all the commands, the two on the resource limits alone can touch
    the manifest: after any other line of ASCII characters the file, and
    whether it can be written, are as before. *)
Theorem only_limit_commands_touch_the_manifest
        (E : Env) (line : string) (w : World) :
  Full.is_ascii line = true ->
  startswith (upper (strip line)) "SET_RESOURCE_LIMITS:" = false ->
  upper (strip line) <> "RESET_RESOURCE_LIMITS" ->
  manifest (snd (process_obc_command E line w)) = manifest w /\
  write_error (snd (process_obc_command E line w)) = write_error w.
Proof.
  intros _ Hs Hr. apply String.eqb_neq in Hr.
  revert w. change (keeps_manifest (process_obc_command E line)).
  unfold process_obc_command. rewrite Hs, Hr.
  unfold lift, start_container, stop_container, call_run_model,
    call_execution_status, call_get_file_number, call_shutdown,
    handle_text_prompt, sh.
  repeat handler_step.
Qed.

Lemma only_limit_commands_touch_the_manifest_witness :
  manifest (snd (process_obc_command healthy "stop_container" fresh))
  = manifest fresh.
Proof.
  exact (proj1 (only_limit_commands_touch_the_manifest healthy "stop_container"
                  fresh eq_refl eq_refl (fun H => ltac:(discriminate H)))).
Defined.

End GatewayMore.

(** * The operations with their exceptions *)

Module FullFacts.

Import Manifest TextFacts ManifestFacts Scenario ResourceManager.
Import OrchestratorFacts.

(** ** Without faults, the operations are those of the plain model *)

Lemma try_sh_no_faults (E : Env) (c : Cmd) (w : World) :
  Full.try_sh Full.no_faults E c w = (inr (run E w c), log (Ran c) w).
Proof. reflexivity. Qed.

Lemma update_no_faults (E : Env) (cpu_limit memory_limit : option string)
      (w : World) :
  Full.update_compose_file Full.no_faults E cpu_limit memory_limit w
  = update_compose_file E cpu_limit memory_limit w.
Proof.
  unfold Full.update_compose_file, update_compose_file.
  destruct (manifest w); [|reflexivity].
  destruct (half_cpus E cpu_limit); [|reflexivity].
  unfold bind, Full.write_file. destruct (write_error w); reflexivity.
Qed.

Lemma verify_no_faults (E : Env) (w : World) :
  Full.verify_container_status Full.no_faults E w = verify_container_status E w.
Proof. reflexivity. Qed.

Lemma get_current_limits_no_faults (E : Env) (w : World) :
  Full.get_current_limits Full.no_faults E w = get_current_limits E w.
Proof. reflexivity. Qed.

Lemma reset_no_faults (E : Env) (w : World) :
  Full.reset_resource_limits Full.no_faults E w = reset_resource_limits E w.
Proof.
  unfold Full.reset_resource_limits, reset_resource_limits, bind, sh.
  rewrite try_sh_no_faults. unfold Full.write_file. cbn [write_error log].
  destruct (write_error w); reflexivity.
Qed.

Lemma set_no_faults (E : Env) (cpu_limit memory_limit : option string)
      (w : World) :
  Full.set_resource_limits Full.no_faults E cpu_limit memory_limit w
  = set_resource_limits E cpu_limit memory_limit w.
Proof.
  unfold Full.set_resource_limits, set_resource_limits, bind, sh.
  rewrite try_sh_no_faults.
  destruct (negb _); [reflexivity|].
  rewrite update_no_faults.
  destruct (update_compose_file E cpu_limit memory_limit _) as [[f|[]] w1];
    reflexivity.
Qed.

(** ** Whether the manifest can be opened for writing never changes *)

Lemma keeps_try_sh (X : Full.Faults) (E : Env) (c : Cmd) :
  keeps (Full.try_sh X E c).
Proof. intros w. unfold Full.try_sh. now destruct (Full.raised X w c). Qed.

Lemma keeps_write_file (X : Full.Faults) (content : string) :
  keeps (Full.write_file X content).
Proof.
  intros w. unfold Full.write_file.
  destruct (write_error w) eqn:Hw; [exact Hw|].
  destruct (Full.write_raised X w content) as [[e rest]|]; reflexivity.
Qed.

Ltac full_keeps_step :=
  first [ apply keeps_ret | apply keeps_try_sh | apply keeps_sleep
        | apply keeps_write_file
        | apply keeps_bind; [|intros ?]
        | match goal with
          | |- keeps (if ?b then _ else _) => destruct b
          | |- keeps (match ?x with _ => _ end) => destruct x
          end ].

Lemma keeps_full_update (X : Full.Faults) (E : Env)
      (cpu_limit memory_limit : option string) :
  keeps (Full.update_compose_file X E cpu_limit memory_limit).
Proof.
  intros w. unfold Full.update_compose_file.
  destruct (manifest w); [|reflexivity].
  destruct (half_cpus E cpu_limit); [|reflexivity].
  revert w. repeat full_keeps_step.
Qed.

Lemma keeps_full_verify (X : Full.Faults) (E : Env) :
  keeps (Full.verify_container_status X E).
Proof. unfold Full.verify_container_status. repeat full_keeps_step. Qed.

Lemma keeps_full_get_current_limits (X : Full.Faults) (E : Env) :
  keeps (Full.get_current_limits X E).
Proof. unfold Full.get_current_limits. repeat full_keeps_step. Qed.

Lemma keeps_full_set (X : Full.Faults) (E : Env)
      (cpu_limit memory_limit : option string) :
  keeps (Full.set_resource_limits X E cpu_limit memory_limit).
Proof.
  unfold Full.set_resource_limits, Full.set_exception.
  repeat first [ apply keeps_full_verify | apply keeps_full_get_current_limits
               | apply keeps_full_update | full_keeps_step ].
Qed.

Lemma keeps_full_apply_all (X : Full.Faults) (E : Env)
      (specs : list (option string * option string)) :
  keeps (Full.apply_all X E specs).
Proof.
  induction specs as [|[c m] specs IH]; [apply keeps_ret|].
  cbn [Full.apply_all]. apply keeps_bind; [apply keeps_full_set|].
  intros _. exact IH.
Qed.

(** ** The manifest after a reset *)

Lemma full_reset_writes_baseline (X : Full.Faults) (E : Env) (w : World) :
  write_error w = None ->
  Full.raised X w ComposeDown = None ->
  Full.write_raised X (log (Ran ComposeDown) w) original_content = None ->
  manifest (snd (Full.reset_resource_limits X E w)) = inl original_content.
Proof.
  intros Hw Hr Hf.
  unfold Full.reset_resource_limits, bind, Full.try_sh at 1. rewrite Hr.
  unfold Full.write_file. cbn [write_error log]. rewrite Hw.
  cbn [log] in Hf. rewrite Hf.
  unfold Full.try_sh, Full.reset_exception.
  match goal with |- context [Full.raised X ?w ?c] =>
    destruct (Full.raised X w c) end; [reflexivity|].
  match goal with |- context [negb ?b] => destruct b end; reflexivity.
Qed.

(** C6, as amended: after [applyLimits] for any list of specifications,
    whatever their outcomes, [resetLimits] leaves the manifest equal to the
    baseline document, which has no [deploy:] section, provided that the
    manifest can be opened for writing, that the stop command of the reset
    returns, and that the write of the baseline raises nothing. *)
Theorem reset_restores_baseline_when_stop_returns
        (X : Full.Faults) (E : Env)
        (specs : list (option string * option string)) (w : World) :
  write_error w = None ->
  Full.raised X (snd (Full.apply_all X E specs w)) ComposeDown = None ->
  Full.write_raised X (log (Ran ComposeDown) (snd (Full.apply_all X E specs w)))
                    original_content = None ->
  manifest (snd (Full.reset_resource_limits X E
                   (snd (Full.apply_all X E specs w))))
  = inl original_content
  /\ contains "deploy:" original_content = false.
Proof.
  intros Hw Hr Hf. split; [|reflexivity].
  apply full_reset_writes_baseline; try assumption.
  now rewrite keeps_full_apply_all.
Qed.

Lemma reset_restores_baseline_when_stop_returns_witness :
  manifest (snd (Full.apply_all Full.rm_raises healthy
                   [(Some "0.5", Some "512M"); (Some "2.0", None)] fresh))
  <> inl original_content
  /\ manifest (snd (Full.reset_resource_limits Full.rm_raises healthy
                      (snd (Full.apply_all Full.rm_raises healthy
                              [(Some "0.5", Some "512M"); (Some "2.0", None)]
                              fresh))))
     = inl original_content.
Proof.
  split; [vm_compute; discriminate|].
  exact (proj1 (reset_restores_baseline_when_stop_returns Full.rm_raises healthy
                  [(Some "0.5", Some "512M"); (Some "2.0", None)] fresh
                  eq_refl eq_refl eq_refl)).
Defined.

(** C6, as stated, fails: when the stop command of the reset cannot be
    started, [subprocess.run] raises, the [except] clause answers before the
    file is opened, and the manifest keeps the section that [applyLimits]
    wrote, though every write succeeds. *)
Lemma reset_always_restores_fails : ~ Full.reset_always_restores.
Proof.
  intros H.
  specialize (H Full.stop_raises_after_write healthy
                [(Some "0.5", Some "512M")] fresh eq_refl
                (fun _ _ => eq_refl)).
  vm_compute in H. discriminate H.
Qed.

(** ** A manifest without the identity marker *)




(** ** One limit given *)





(** ** The answer to a command that names a limit *)

Lemma full_main_set (X : Full.Faults) (E : Env) (a b : string) (w : World) :
  Full.main X E ["set"; a; b] w
  = (if success (fst (Full.set_resource_limits X E (Some a) (Some b) w))
     then exit 0 else exit 1,
     snd (Full.set_resource_limits X E (Some a) (Some b) w)).
Proof.
  cbn [Full.main lower map_string].
  change (_ =? "set") with true. cbv iota. unfold bind.
  destruct (Full.set_resource_limits X E (Some a) (Some b) w) as [[f|ap] w1];
    reflexivity.
Qed.

(** The answer to a command, of ASCII characters, that names a limit.  An
    argument with a NUL character, or a script that cannot be started, gives
    RESOURCE_LIMITS_ERROR: with the text of the exception, and nothing is
    run.  Otherwise the orchestration runs on the limits given, with [1.0]
    and [1G] for one that is missing or empty; the answer is
    RESOURCE_LIMITS_ERROR: with the text of the exception when the output
    of the script cannot be read, RESOURCE_LIMITS_SET with the limits as
    parsed when the orchestration succeeds, and RESOURCE_LIMITS_ERROR: with
    nothing after the colon when it fails, whatever the failure. *)
Theorem set_command_outcome_with_exceptions
        (X : Full.Faults) (E : Env) (w : World) (command head data : string)
        (cpu_limit memory_limit : option string) :
  Full.is_ascii command = true ->
  split1 ":" command = [head; data] ->
  Gateway.parse_pairs (split "," data) None None = (cpu_limit, memory_limit) ->
  Gateway.given cpu_limit || Gateway.given memory_limit = true ->
  let parts := Gateway.cmd_parts cpu_limit memory_limit in
  let outcome :=
    Full.set_resource_limits X E
      (Some (if Gateway.given cpu_limit then Gateway.fmt cpu_limit else "1.0"))
      (Some (if Gateway.given memory_limit then Gateway.fmt memory_limit else "1G"))
      w in
  FullGateway.set_resource_limits X E command w
  = if FullGateway.embedded_null parts then
      ("RESOURCE_LIMITS_ERROR:embedded null byte", w)
    else
      match Full.spawn_raised X w parts with
      | Some e => ("RESOURCE_LIMITS_ERROR:" ++ e, w)
      | None =>
          match Full.output_raised X (snd outcome) parts with
          | Some e => ("RESOURCE_LIMITS_ERROR:" ++ e, snd outcome)
          | None =>
              (if success (fst outcome)
               then "RESOURCE_LIMITS_SET:CPU=" ++ Gateway.fmt cpu_limit
                      ++ ",Memory=" ++ Gateway.fmt memory_limit
               else "RESOURCE_LIMITS_ERROR:",
               snd outcome)
          end
      end.
Proof.
  intros _ Hs Hp Hg parts outcome.
  unfold FullGateway.set_resource_limits. rewrite Hs, Hp.
  replace (negb (Gateway.given cpu_limit) && negb (Gateway.given memory_limit))
    with false
    by (destruct (Gateway.given cpu_limit), (Gateway.given memory_limit);
        simpl in *; congruence).
  unfold bind, FullGateway.python3. fold parts.
  destruct (FullGateway.embedded_null parts); [reflexivity|].
  destruct (Full.spawn_raised X w parts); [reflexivity|].
  replace (Full.main X E (skipn 2 parts) w)
    with (if success (fst outcome) then exit 0 else exit 1, snd outcome)
    by (symmetry; apply full_main_set).
  destruct (Full.output_raised X (snd outcome) parts); [reflexivity|].
  destruct (success (fst outcome)); reflexivity.
Qed.

Lemma set_command_outcome_with_exceptions_witness :
  FullGateway.set_resource_limits Full.no_faults Steps.start_fails
    ("SET_RESOURCE_LIMITS:CPU=" ++ String zero EmptyString) fresh
  = ("RESOURCE_LIMITS_ERROR:embedded null byte", fresh)
  /\
  FullGateway.set_resource_limits Full.no_faults Steps.start_fails
    "SET_RESOURCE_LIMITS:CPU=0.5,MEMORY=512M" fresh
  = ("RESOURCE_LIMITS_ERROR:",
     snd (Full.set_resource_limits Full.no_faults Steps.start_fails (Some "0.5")
            (Some "512M") fresh)).
Proof.
  split.
  - exact (set_command_outcome_with_exceptions Full.no_faults Steps.start_fails fresh
             ("SET_RESOURCE_LIMITS:CPU=" ++ String zero EmptyString)
             "SET_RESOURCE_LIMITS" ("CPU=" ++ String zero EmptyString)
             (Some (String zero EmptyString)) None
             eq_refl eq_refl eq_refl eq_refl).
  - exact (set_command_outcome_with_exceptions Full.no_faults Steps.start_fails fresh
             "SET_RESOURCE_LIMITS:CPU=0.5,MEMORY=512M" "SET_RESOURCE_LIMITS"
             "CPU=0.5,MEMORY=512M" (Some "0.5") (Some "512M")
             eq_refl eq_refl eq_refl eq_refl).
Defined.

(** ** The steps of the orchestration *)

Lemma full_set_steps (X : Full.Faults) (E : Env)
      (cpu_limit memory_limit : option string) :
  Full.set_resource_limits X E cpu_limit memory_limit
  = (r <- Full.try_sh X E ComposeDown ;;
     match r with
     | inl e => Full.set_exception e
     | inr stop_result =>
         if negb (returncode stop_result =? 0)%Z then
           ret (Failed {| message := "Failed to stop container: "
                                       ++ stderr stop_result;
                          error := STOP_CONTAINER_FAILED |})
         else
           update_result <- Full.update_compose_file X E cpu_limit memory_limit ;;
           match update_result with
           | Failed f => ret (Failed f)
           | Success _ => Full.recreate_and_verify X E cpu_limit memory_limit
           end
     end).
Proof. reflexivity. Qed.

Lemma keeps_manifest_try_sh (X : Full.Faults) (E : Env) (c : Cmd) :
  Loop.keeps_manifest (Full.try_sh X E c).
Proof.
  intros w. unfold Full.try_sh.
  destruct (Full.raised X w c); split; reflexivity.
Qed.

Ltac full_manifest_step :=
  first [ apply OrchestratorMore.keeps_manifest_ret
        | apply keeps_manifest_try_sh
        | apply OrchestratorMore.keeps_manifest_sleep
        | apply OrchestratorMore.keeps_manifest_bind; [|intros ?]
        | match goal with
          | |- Loop.keeps_manifest (if ?b then _ else _) => destruct b
          | |- Loop.keeps_manifest (match ?x with _ => _ end) => destruct x
          end ].

Lemma keeps_manifest_full_recreate (X : Full.Faults) (E : Env)
      (cpu_limit memory_limit : option string) :
  Loop.keeps_manifest (Full.recreate_and_verify X E cpu_limit memory_limit).
Proof.
  unfold Full.recreate_and_verify, Full.verify_container_status,
    Full.get_current_limits, Full.set_exception.
  repeat full_manifest_step.
Qed.

(** What the steps after the update can fail with. *)
Lemma full_recreate_failure (X : Full.Faults) (E : Env)
      (cpu_limit memory_limit : option string) (w : World) (f : Failure) :
  fst (Full.recreate_and_verify X E cpu_limit memory_limit w) = Failed f ->
  error f <> FILE_UPDATE_FAILED.
Proof.
  unfold Full.recreate_and_verify, Full.verify_container_status,
    Full.set_exception, bind, Full.try_sh, ret.
  repeat match goal with
         | |- context [Full.raised X ?w ?c] => destruct (Full.raised X w c)
         | |- context [if ?b then _ else _] => destruct b
         end;
    cbn [fst]; intros H; try (inversion H; subst; discriminate).
  unfold sleep in H. cbv iota in H.
  destruct (Full.get_current_limits X E _) in H. discriminate H.
Qed.

(** When the update of the manifest fails (unreadable file, a CPU limit
    that is no number, a file that cannot be opened for writing, a write
    that raises), the stop had returned and succeeded and is the only
    command that ran: the instance is left stopped.  The manifest is as it
    was, unless the write raised once the file was open: then the file,
    emptied by [open(..., 'w')], holds what the write left in it. *)
Theorem update_failure_leaves_the_instance_stopped
        (X : Full.Faults) (E : Env) (cpu_limit memory_limit : option string)
        (w : World) (f : Failure) :
  fst (Full.set_resource_limits X E cpu_limit memory_limit w) = Failed f ->
  error f = FILE_UPDATE_FAILED ->
  Full.raised X w ComposeDown = None /\
  returncode (run E w ComposeDown) = 0%Z /\
  (snd (Full.set_resource_limits X E cpu_limit memory_limit w)
   = log (Ran ComposeDown) w
   \/ exists content half e rest,
        manifest w = inl content /\ half_cpus E cpu_limit = inl half /\
        write_error w = None /\
        Full.write_raised X (log (Ran ComposeDown) w)
                          (patch cpu_limit memory_limit half content)
        = Some (e, rest) /\
        message f = "Error updating compose file: " ++ e /\
        snd (Full.set_resource_limits X E cpu_limit memory_limit w)
        = {| manifest := inl rest; write_error := None;
             trace := trace w ++ [Ran ComposeDown; Wrote rest] |}).
Proof.
  rewrite full_set_steps. unfold bind, Full.try_sh.
  destruct (Full.raised X w ComposeDown) as [e|];
    [cbn [fst Full.set_exception ret]; intros H Hk; inversion H; subst f;
     discriminate Hk|].
  destruct (returncode (run E w ComposeDown) =? 0)%Z eqn:H0; cbn [negb];
    [|cbn [fst ret]; intros H Hk; inversion H; subst f; discriminate Hk].
  apply Z.eqb_eq in H0. intros H Hk. split; [reflexivity|]. split; [exact H0|].
  revert H. unfold Full.update_compose_file. cbn [manifest log].
  destruct (manifest w) as [content|e];
    [|intros _; left; reflexivity].
  destruct (half_cpus E cpu_limit) as [half|e];
    [|intros _; left; reflexivity].
  unfold bind, Full.write_file.
  change (write_error (log (Ran ComposeDown) w)) with (write_error w).
  destruct (write_error w) as [e|] eqn:Hw; [intros _; left; reflexivity|].
  destruct (Full.write_raised X _ _) as [[e rest]|] eqn:Hf.
  - cbn [fst snd ret]. intros H. inversion H; subst f. right.
    exists content, half, e, rest. repeat split; try assumption.
    unfold log. cbn [trace]. now rewrite <- app_assoc.
  - cbn [ret]. intros H.
    apply full_recreate_failure in H. contradiction.
Qed.

Lemma update_failure_leaves_the_instance_stopped_witness :
  Full.set_resource_limits Full.disk_full healthy (Some "0.5") (Some "512M") fresh
  = (Failed {| message := "Error updating compose file: "
                            ++ "[Errno 28] No space left on device";
               error := FILE_UPDATE_FAILED |},
     {| manifest := inl EmptyString; write_error := None;
        trace := [Ran ComposeDown; Wrote EmptyString] |})
  /\ returncode (run healthy fresh ComposeDown) = 0%Z.
Proof.
  split; [vm_compute; reflexivity|].
  exact (proj1 (proj2
    (update_failure_leaves_the_instance_stopped Full.disk_full healthy
       (Some "0.5") (Some "512M") fresh
       {| message := "Error updating compose file: "
                       ++ "[Errno 28] No space left on device";
          error := FILE_UPDATE_FAILED |} eq_refl eq_refl))).
Defined.

Lemma full_set_success (X : Full.Faults) (E : Env)
      (cpu_limit memory_limit : option string) (w : World) (a : Applied) :
  fst (Full.set_resource_limits X E cpu_limit memory_limit w) = Success a ->
  exists content half,
    manifest w = inl content /\ half_cpus E cpu_limit = inl half /\
    manifest (snd (Full.set_resource_limits X E cpu_limit memory_limit w))
    = inl (patch cpu_limit memory_limit half content).
Proof.
  rewrite full_set_steps. unfold bind, Full.try_sh.
  destruct (Full.raised X w ComposeDown) as [e|]; [discriminate|].
  destruct (negb _); [discriminate|].
  unfold Full.update_compose_file. cbn [manifest log].
  destruct (manifest w) as [content|e]; [|discriminate].
  destruct (half_cpus E cpu_limit) as [half|e]; [|discriminate].
  unfold bind, Full.write_file.
  change (write_error (log (Ran ComposeDown) w)) with (write_error w).
  destruct (write_error w) as [e|]; [discriminate|].
  destruct (Full.write_raised X _ _) as [[e rest]|]; [discriminate|].
  cbn [ret]. intros _. exists content, half.
  split; [reflexivity|]. split; [reflexivity|].
  now rewrite (proj1 (keeps_manifest_full_recreate X E cpu_limit memory_limit _)).
Qed.

(** Applying limits after a reset whose stop command returned and whose
    write raised nothing: when the orchestration succeeds, the manifest is
    the baseline document followed by one section with the limits asked
    for, whatever it was before the reset. *)
Theorem apply_after_reset_when_stop_returns
        (X : Full.Faults) (E : Env) (cpu_limit memory_limit : option string)
        (w : World) (a : Applied) :
  write_error w = None ->
  Full.raised X w ComposeDown = None ->
  Full.write_raised X (log (Ran ComposeDown) w) original_content = None ->
  fst (Full.set_resource_limits X E cpu_limit memory_limit
         (snd (Full.reset_resource_limits X E w))) = Success a ->
  exists half,
    half_cpus E cpu_limit = inl half /\
    manifest (snd (Full.set_resource_limits X E cpu_limit memory_limit
                     (snd (Full.reset_resource_limits X E w))))
    = inl (original_content ++ nl
             ++ limits_section cpu_limit memory_limit half).
Proof.
  intros Hw Hr Hf H.
  pose proof (full_reset_writes_baseline X E w Hw Hr Hf) as Hb.
  destruct (full_set_success X E cpu_limit memory_limit _ a H)
    as [content [half [Hm [Hh Hp]]]].
  exists half. split; [assumption|].
  rewrite Hp. rewrite Hb in Hm. inversion Hm; subst content.
  now rewrite ManifestMore.patch_baseline.
Qed.

Lemma apply_after_reset_when_stop_returns_witness :
  let twice :=
    snd (Full.apply_all Full.rm_raises healthy
           [(Some "2.0", Some "1G"); (Some "0.5", Some "512M")] fresh) in
  manifest (snd (Full.set_resource_limits Full.no_faults healthy
                   (Some "0.5") (Some "512M")
                   (snd (Full.reset_resource_limits Full.no_faults healthy twice))))
  = inl (original_content ++ nl
           ++ limits_section (Some "0.5") (Some "512M") "0.25").
Proof.
  cbv zeta.
  destruct (apply_after_reset_when_stop_returns Full.no_faults healthy
              (Some "0.5") (Some "512M")
              (snd (Full.apply_all Full.rm_raises healthy
                      [(Some "2.0", Some "1G"); (Some "0.5", Some "512M")] fresh))
              {| applied_message := "Resource limits applied successfully";
                 limits := (Some "0.5", Some "512M");
                 current_limits := {| cpu := "0.5"; memory := "512M" |};
                 container_status := "Up 2 seconds" |}
              eq_refl eq_refl eq_refl eq_refl) as [half [Hh Hm]].
  inversion Hh; subst half. exact Hm.
Defined.

End FullFacts.
